(** * Document extraction agent: classification, structuring and sanitation

    A shallow embedding of the pure core of the document pipeline
    ([backend/main.py] and [backend/helpers/openai_mapper.py]) together with
    the properties its specification states about it, and of the folder
    listing of [backend/helpers/blob_utils.py] and the text assembly of
    [backend/helpers/document_intel.py].

    Python values are modelled as follows.
    - [str] is [string]; the character operations ([lower], [strip], the
      classes [\d], [\s], [\w] of [re]) are those of Python on ASCII text.
    - a parsed JSON document is the inductive [json], with [None] as
      [JNull]; a [dict] is an association list in insertion order with the
      update-or-append assignment of Python ([dict_set]).
    - exceptions are values of [pyexn] carried by [result]; a [try] block
      is a function to [result] and its [except Exception] clause a match
      on it.
    - the text extractor, the generative model and the clock are events of
      the program type [prog], run against a [world].
    - [float(a) < float(b)], [json.loads], [str(e)] and [json.dumps] belong
      to Python and are section variables.

    The log callbacks and the Streamlit display are left out: they return
    nothing the functions below depend on. *)

From Stdlib Require Import Bool Arith List ZArith Lia Ascii String Floats.
From Stdlib Require Import Sorted Permutation.
From Stdlib Require Orders Mergesort.
Import ListNotations.

Set Warnings "-register-all".
Open Scope string_scope.
Open Scope list_scope.

(** ** Python strings *)

Module PyStr.

Definition code (c : ascii) : nat := nat_of_ascii c.

Definition between (lo hi : nat) (c : ascii) : bool :=
  (lo <=? code c)%nat && (code c <=? hi)%nat.

Definition is_upper (c : ascii) : bool := between 65 90 c.
Definition is_digit (c : ascii) : bool := between 48 57 c.
Definition is_alpha (c : ascii) : bool := between 65 90 c || between 97 122 c.

(** [str.isspace] on ASCII: TAB..CR, FS..US and the blank. *)
Definition is_space (c : ascii) : bool :=
  between 9 13 c || between 28 32 c.

(** [\w] on ASCII: letters, digits and the underscore. *)
Definition is_word (c : ascii) : bool :=
  is_alpha c || is_digit c || (code c =? 95)%nat.

Definition lower_char (c : ascii) : ascii :=
  if is_upper c then ascii_of_nat (code c + 32) else c.

Fixpoint lower (s : string) : string :=
  match s with
  | EmptyString => EmptyString
  | String c s' => String (lower_char c) (lower s')
  end.

(** [k in s] for two strings. *)
Fixpoint contains (k s : string) : bool :=
  String.prefix k s ||
  match s with
  | EmptyString => false
  | String _ s' => contains k s'
  end.

(** [any(k in s for k in ks)]. *)
Definition any_in (ks : list string) (s : string) : bool :=
  existsb (fun k => contains k s) ks.

Fixpoint lstrip_by (p : ascii -> bool) (s : string) : string :=
  match s with
  | EmptyString => EmptyString
  | String c s' => if p c then lstrip_by p s' else s
  end.

(** Dropping a trailing run: the tail is stripped first, and the head goes
    only when nothing of the tail is left. *)
Fixpoint rstrip_by (p : ascii -> bool) (s : string) : string :=
  match s with
  | EmptyString => EmptyString
  | String c s' =>
      match rstrip_by p s' with
      | EmptyString => if p c then EmptyString else String c EmptyString
      | r => String c r
      end
  end.

Definition in_chars (chars : string) (c : ascii) : bool :=
  existsb (Ascii.eqb c) (list_ascii_of_string chars).

(** [s.strip()], [s.rstrip(chars)]. *)
Definition strip (s : string) : string := rstrip_by is_space (lstrip_by is_space s).
Definition rstrip (chars s : string) : string := rstrip_by (in_chars chars) s.

(** [s.replace(old, new)] for a non-empty [old]: left to right, without
    overlap; [skip] counts the characters of a match still to be passed. *)
Fixpoint replace_from (old new : string) (skip : nat) (s : string) : string :=
  match s with
  | EmptyString => EmptyString
  | String c s' =>
      match skip with
      | S n => replace_from old new n s'
      | O =>
          if String.prefix old s
          then (new ++ replace_from old new (String.length old - 1) s')%string
          else String c (replace_from old new 0 s')
      end
  end.

Definition replace (old new s : string) : string := replace_from old new 0 s.

(** [s.split(sep)] for a non-empty [sep]; [cur] is the piece being read. *)
Fixpoint split_from (sep : string) (skip : nat) (cur : string) (s : string)
  : list string :=
  match s with
  | EmptyString => [cur]
  | String c s' =>
      match skip with
      | S n => split_from sep n cur s'
      | O =>
          if String.prefix sep s
          then cur :: split_from sep (String.length sep - 1) EmptyString s'
          else split_from sep 0 (cur ++ String c EmptyString)%string s'
      end
  end.

Definition split (sep s : string) : list string := split_from sep 0 EmptyString s.

(** [s[a:b]] for [0 <= a] and [0 <= b]. *)
Definition slice (a b : nat) (s : string) : string := substring a (b - a) s.

End PyStr.

(** ** JSON values and Python dictionaries *)

Inductive json : Type :=
| JNull
| JBool (b : bool)
| JInt (z : Z)
| JFloat (f : float)
| JStr (s : string)
| JArr (l : list json)
| JObj (d : list (string * json)).

Definition dict (V : Type) : Type := list (string * V).

Fixpoint dict_get {V : Type} (k : string) (d : dict V) : option V :=
  match d with
  | [] => None
  | (k', v) :: d' => if String.eqb k k' then Some v else dict_get k d'
  end.

Definition dict_has {V : Type} (k : string) (d : dict V) : bool :=
  match dict_get k d with Some _ => true | None => false end.

(** [d[k] = v]: an existing key keeps its place, a new one goes last. *)
Fixpoint dict_set {V : Type} (k : string) (v : V) (d : dict V) : dict V :=
  match d with
  | [] => [(k, v)]
  | (k', v') :: d' =>
      if String.eqb k k' then (k', v) :: d' else (k', v') :: dict_set k v d'
  end.

Definition keys {V : Type} (d : dict V) : list string := map fst d.

(** Induction on [json] that reaches the elements of arrays and the values
    of objects. *)
Section JsonInduction.
Variable P : json -> Prop.
Hypothesis Hnull : P JNull.
Hypothesis Hbool : forall b, P (JBool b).
Hypothesis Hint : forall z, P (JInt z).
Hypothesis Hfloat : forall f, P (JFloat f).
Hypothesis Hstr : forall s, P (JStr s).
Hypothesis Harr : forall l, Forall P l -> P (JArr l).
Hypothesis Hobj : forall d, Forall (fun kv => P (snd kv)) d -> P (JObj d).

Fixpoint json_deep_ind (x : json) : P x :=
  match x with
  | JNull => Hnull
  | JBool b => Hbool b
  | JInt z => Hint z
  | JFloat f => Hfloat f
  | JStr s => Hstr s
  | JArr l =>
      Harr l ((fix elems (l : list json) : Forall P l :=
                 match l with
                 | [] => Forall_nil P
                 | v :: l' => Forall_cons v (json_deep_ind v) (elems l')
                 end) l)
  | JObj d =>
      Hobj d ((fix items (d : list (string * json))
                 : Forall (fun kv => P (snd kv)) d :=
                 match d with
                 | [] => Forall_nil _
                 | kv :: d' =>
                     Forall_cons kv (json_deep_ind (snd kv)) (items d')
                 end) d)
  end.
End JsonInduction.

(** ** Empty-field stripping ([OpenAIMapper._clean_empty_fields]) *)

(** [v is not None and v != [] and v != {}]. *)
Definition keep (v : json) : bool :=
  match v with
  | JNull => false
  | JArr [] => false
  | JObj [] => false
  | _ => true
  end.

(** One turn of the loop over [obj.items()]. *)
Definition clean_item (clean : json -> json) (cleaned : dict json)
  (kv : string * json) : dict json :=
  let cleaned_value := clean (snd kv) in
  if keep cleaned_value then dict_set (fst kv) cleaned_value cleaned else cleaned.

Fixpoint _clean_empty_fields (obj : json) : json :=
  match obj with
  | JObj d => JObj (fold_left (clean_item _clean_empty_fields) d [])
  | JArr l =>
      match filter keep (map _clean_empty_fields l) with
      | [] => JNull
      | cleaned => JArr cleaned
      end
  | _ => obj
  end.

(** No key, at any depth, is bound to null, [[]] or [{}]. *)
Fixpoint no_empty_values (x : json) : bool :=
  match x with
  | JObj d => forallb (fun kv => keep (snd kv) && no_empty_values (snd kv)) d
  | JArr l => forallb no_empty_values l
  | _ => true
  end.

(** ** The fragment of [re] the mapper uses

    A backtracking matcher in continuation-passing style: alternatives are
    tried left to right, repetitions and options are greedy, and a later
    failure re-enters the most recent choice, as in Python.  The repetitions
    of the source all range over a single character class. *)

Module Re.

Inductive cls : Type :=
| Digit                      (* \d *)
| Space                      (* \s *)
| OneOf (chars : string).    (* [...] *)

Definition in_cls (k : cls) (c : ascii) : bool :=
  match k with
  | Digit => PyStr.is_digit c
  | Space => PyStr.is_space c
  | OneOf chars => PyStr.in_chars chars c
  end.

Inductive regex : Type :=
| Lit (s : string)
| Chr (k : cls)
| Rep (min : nat) (k : cls)        (* k{min,} and, for 0 and 1, k* and k+ *)
| Cat (r1 r2 : regex)
| Alt (r1 r2 : regex)
| Opt (r : regex)                  (* r? *)
| Grp (r : regex)                  (* the capturing group, number 1 *)
| Wordb.                           (* \b *)

(** A position in the subject: its index, the character before it, the
    text from it on, and the span of group 1 when it has been closed. *)
Record cursor : Type := Cursor {
  pos : nat;
  prev : option ascii;
  rest : string;
  span : option (nat * nat)
}.

Definition step (c : cursor) (a : ascii) (t : string) : cursor :=
  Cursor (S (pos c)) (Some a) t (span c).

Definition word_before (c : cursor) : bool :=
  match prev c with Some a => PyStr.is_word a | None => false end.

Definition word_after (c : cursor) : bool :=
  match rest c with String a _ => PyStr.is_word a | EmptyString => false end.

Fixpoint lit (s : string) (c : cursor) : option cursor :=
  match s with
  | EmptyString => Some c
  | String a s' =>
      match rest c with
      | String b t => if Ascii.eqb a b then lit s' (step c b t) else None
      | EmptyString => None
      end
  end.

(** Greedy [k{min,}] from [c], whose remaining text is [s]: the longest run
    first, one character given back at each failure of [cont]. *)
Fixpoint rep (k : cls) (min : nat) (s : string) (c : cursor)
  (cont : cursor -> option cursor) : option cursor :=
  let stop := match min with O => cont c | S _ => None end in
  match s with
  | String a t =>
      if in_cls k a
      then match rep k (Nat.pred min) t (step c a t) cont with
           | Some e => Some e
           | None => stop
           end
      else stop
  | EmptyString => stop
  end.

Fixpoint run (r : regex) (c : cursor) (cont : cursor -> option cursor)
  : option cursor :=
  match r with
  | Lit s => match lit s c with Some c' => cont c' | None => None end
  | Chr k =>
      match rest c with
      | String a t => if in_cls k a then cont (step c a t) else None
      | EmptyString => None
      end
  | Rep min k => rep k min (rest c) c cont
  | Cat r1 r2 => run r1 c (fun c' => run r2 c' cont)
  | Alt r1 r2 =>
      match run r1 c cont with
      | Some e => Some e
      | None => run r2 c cont
      end
  | Opt r' =>
      match run r' c cont with
      | Some e => Some e
      | None => cont c
      end
  | Grp r' =>
      run r' c (fun c' => cont (Cursor (pos c') (prev c') (rest c')
                                       (Some (pos c, pos c'))))
  | Wordb => if xorb (word_before c) (word_after c) then cont c else None
  end.

(** A match object: [start()], [end()] and the span of group 1. *)
Record rmatch : Type := Match {
  m_start : nat;
  m_end : nat;
  m_span : option (nat * nat)
}.

Definition match_at (r : regex) (i : nat) (before : option ascii) (s : string)
  : option rmatch :=
  match run r (Cursor i before s None) Some with
  | Some e => Some (Match i (pos e) (span e))
  | None => None
  end.

(** [re.search]: the match at the leftmost position that has one. *)
Fixpoint search_from (r : regex) (i : nat) (before : option ascii) (s : string)
  : option rmatch :=
  match match_at r i before s with
  | Some m => Some m
  | None =>
      match s with
      | String a t => search_from r (S i) (Some a) t
      | EmptyString => None
      end
  end.

Definition search (r : regex) (s : string) : option rmatch :=
  search_from r 0 None s.

(** [re.finditer]: successive matches without overlap; [skip] counts the
    characters of the last match still to be passed. *)
Fixpoint finditer_from (r : regex) (skip i : nat) (before : option ascii)
  (s : string) : list rmatch :=
  let found := match skip with O => match_at r i before s | S _ => None end in
  let next (skip' : nat) :=
    match s with
    | String a t => finditer_from r skip' (S i) (Some a) t
    | EmptyString => []
    end in
  match found with
  | Some m => m :: next (m_end m - i - 1)
  | None => next (Nat.pred skip)
  end.

Definition finditer (r : regex) (s : string) : list rmatch :=
  finditer_from r 0 0 None s.

(** [m.group(1)] and [m.group(0)] on the subject [s]. *)
Definition group1 (s : string) (m : rmatch) : string :=
  match m_span m with
  | Some (a, b) => PyStr.slice a b s
  | None => EmptyString
  end.

Definition group0 (s : string) (m : rmatch) : string :=
  PyStr.slice (m_start m) (m_end m) s.

(** [re.findall] for a pattern without groups. *)
Definition findall (r : regex) (s : string) : list string :=
  map (group0 s) (finditer r s).

(** [re.sub(r, repl, s)] for a pattern whose matches are never empty. *)
Fixpoint sub_from (r : regex) (repl : string) (skip i : nat)
  (before : option ascii) (s : string) : string :=
  let found := match skip with O => match_at r i before s | S _ => None end in
  match s with
  | EmptyString => EmptyString
  | String a t =>
      match found, skip with
      | Some m, _ =>
          (repl ++ sub_from r repl (m_end m - i - 1) (S i) (Some a) t)%string
      | None, O => String a (sub_from r repl 0 (S i) (Some a) t)
      | None, S n => sub_from r repl n (S i) (Some a) t
      end
  end.

Definition sub (r : regex) (repl s : string) : string :=
  sub_from r repl 0 0 None s.

Declare Scope re_scope.
Delimit Scope re_scope with re.
Notation "r1 ';;' r2" := (Cat r1 r2) (at level 61, right associativity) : re_scope.
Notation "r1 '<|>' r2" := (Alt r1 r2) (at level 62, right associativity) : re_scope.

End Re.

(** ** Odometer and trip readings
    ([OpenAIMapper._extract_odometer_and_trip_values]) *)

Module Patterns.
Import Re.
Open Scope re_scope.

Definition tab : string := String (ascii_of_nat 9) EmptyString.

(** [\d+(?:\.\d+)?] *)
Definition number : regex := Rep 1 Digit ;; Opt (Lit "." ;; Rep 1 Digit).

(** [[,\t]+] and [\s{2,}] *)
Definition commas_tabs : regex := Rep 1 (OneOf ("," ++ tab)).
Definition blank_run : regex := Rep 2 Space.

(** [\bkm\b|\bkilometer] *)
Definition metric : regex :=
  (Wordb ;; Lit "km" ;; Wordb) <|> (Wordb ;; Lit "kilometer").

(** [(?:trip|tm)\s*[:\-]?\s*(\d+(?:\.\d+)?)\b] *)
Definition trip_after_label : regex :=
  (Lit "trip" <|> Lit "tm") ;; Rep 0 Space ;; Opt (Chr (OneOf ":-")) ;;
  Rep 0 Space ;; Grp number ;; Wordb.

(** [\b(\d+(?:\.\d+)?)\s*(?:tm|trip)\b] *)
Definition trip_before_label : regex :=
  Wordb ;; Grp number ;; Rep 0 Space ;; (Lit "tm" <|> Lit "trip") ;; Wordb.

(** [computer|trip\s*[ab]\b|info] *)
Definition menu_label : regex :=
  Lit "computer" <|> (Lit "trip" ;; Rep 0 Space ;; Chr (OneOf "ab") ;; Wordb)
  <|> Lit "info".

(** [(\d+(?:\.\d+)?)\s*(?:mi|mile|km|kilometer)s?] *)
Definition mileage : regex :=
  Grp number ;; Rep 0 Space ;;
  (Lit "mi" <|> Lit "mile" <|> Lit "km" <|> Lit "kilometer") ;; Opt (Lit "s").

End Patterns.

(** [max(xs, key=...)]: the first element no later one exceeds; [lt a b]
    reads "the key of [a] is below the key of [b]". *)
Definition max_by {A : Type} (lt : A -> A -> bool) (xs : list A) : option A :=
  match xs with
  | [] => None
  | x :: xs' => Some (fold_left (fun best y => if lt best y then y else best) xs' x)
  end.

Definition nonempty (s : string) : bool :=
  match s with EmptyString => false | String _ _ => true end.

(** [v.rstrip("0").rstrip(".")]. *)
Definition tidy (v : string) : string := PyStr.rstrip "." (PyStr.rstrip "0" v).

Section Odometer.

(** [float_lt a b] stands for [float(a) < float(b)] on two numerals. *)
Variable float_lt : string -> string -> bool.

(** The text the patterns are run on. *)
Definition reading_text (text : string) : string :=
  let clean := Re.sub Patterns.commas_tabs " " (PyStr.lower text) in
  PyStr.strip (Re.sub Patterns.blank_run " " clean).

Definition unit_of (clean : string) : string :=
  match Re.search Patterns.metric clean with
  | Some _ => "km"
  | None => "miles"
  end.

Definition trip_match (clean : string) : option Re.rmatch :=
  match Re.search Patterns.trip_after_label clean with
  | Some m => Some m
  | None => Re.search Patterns.trip_before_label clean
  end.

(** [clean[max(0, m.start() - 10):m.end() + 10]] *)
Definition snippet (clean : string) (m : Re.rmatch) : string :=
  PyStr.slice (Re.m_start m - 10) (Re.m_end m + 10) clean.

Definition is_menu_label (clean : string) (m : Re.rmatch) : bool :=
  match Re.search Patterns.menu_label (snippet clean m) with
  | Some _ => true
  | None => false
  end.

(** [trip_val] before it is tidied. *)
Definition trip_found (clean : string) : string :=
  match trip_match clean with
  | Some m => if is_menu_label clean m then EmptyString else Re.group1 clean m
  | None => EmptyString
  end.

Definition mileage_matches (clean : string) : list Re.rmatch :=
  Re.finditer Patterns.mileage clean.

Definition nums (clean : string) : list string :=
  Re.findall Patterns.number clean.

(** [odo_val] before it is tidied. *)
Definition odo_found (clean : string) : string :=
  match mileage_matches clean with
  | [] =>
      match max_by float_lt (nums clean) with
      | Some x => x
      | None => EmptyString
      end
  | m :: ms => Re.group1 clean (last ms m)
  end.

Definition _extract_odometer_and_trip_values (text : string) : dict string :=
  if nonempty text then
    let clean := reading_text text in
    let unit := unit_of clean in
    let trip_val := trip_found clean in
    let odo_val := odo_found clean in
    let odo_val := if nonempty odo_val then tidy odo_val else odo_val in
    let trip_val := if nonempty trip_val then tidy trip_val else trip_val in
    let result := [("OdometerReading", odo_val); ("Unit", unit)] in
    if nonempty trip_val then dict_set "TripReading" trip_val result else result
  else [].

End Odometer.

(** ** Document-type detection ([main.detect_document_type]) *)

Module Keywords.
Definition residence_name : list string :=
  ["por"; "proofres"; "residenceproof"; "addressproof"; "utilitybill"; "lease";
   "proofresidence"].
Definition income_name : list string :=
  ["poi"; "proofincome"; "incomeproof"; "incomecertificate"; "paystub";
   "salaryslip"; "ssa"; "wages"; "earnings"; "income"].
Definition title_name : list string :=
  ["title"; "certificateoftitle"; "vehicletitle"; "ownershiptitle"].
Definition insurance_name : list string :=
  ["insurance"; "policy"; "plan"; "coverage"; "cobra"].
Definition license_name : list string := ["dl"; "driverlicense"; "driver"].
Definition license_sibling : list string := ["driverlicense"; "dl"; "driver"].
Definition registration_name : list string := ["reg"; "registration"].
Definition odometer_name : list string := ["odo"; "odometer"; "mileage"].
Definition reference_name : list string :=
  ["reference"; "references"; "ref"; "personalref"; "characterref"; "employerref"].

Definition front_text : list string :=
  ["date of birth"; "dob"; "sex"; "height"; "weight"; "eye"; "class"; "address";
   "expiration"; "issue date"].
Definition back_text : list string :=
  ["dmv"; "barcode"; "organ donor"; "address change"; "endorsement"; "back";
   "restrictions"].
Definition title_text : list string :=
  ["certificate of title"; "vehicle title"; "title and identification";
   "lienholder"; "ownership"; "odometer reading"].
Definition income_text : list string :=
  ["pay period"; "net income"; "gross income"; "employer"; "employee"; "earnings";
   "pay date"; "compensation"; "deductions"; "social security"; "ssa"].
Definition income_residence_text : list string :=
  ["address"; "lease agreement"; "residence"; "utility service";
   "proof of residence"; "proof of address"; "water bill"; "gas bill"].
Definition residence_text : list string :=
  ["utility"; "lease"; "resident"; "residence"; "tenant"; "service address";
   "payment due"; "bill to"; "provider"; "amount due"; "proof of residence";
   "proof of address"].
Definition insurance_text : list string :=
  ["policy"; "premium"; "plan"; "coverage"; "expiration date"; "effective date"].
Definition reference_text : list string :=
  ["reference"; "personal reference"; "character reference";
   "employer reference"; "contact person"; "emergency contact"; "reference name";
   "referee"; "guarantor"].
End Keywords.

(** [filename.lower().replace("_", "").replace("-", "").replace(" ", "")] *)
Definition normalized_name (filename : string) : string :=
  PyStr.replace " " "" (PyStr.replace "-" "" (PyStr.replace "_" "" (PyStr.lower filename))).

(** [sum(1 for f in all_files if any(k in f.lower() for k in [...]))] *)
Definition dl_count (all_files : list string) : nat :=
  List.length
    (filter (fun f => PyStr.any_in Keywords.license_sibling (PyStr.lower f)) all_files).

(** The choice between the two sides when one license file is in the batch. *)
Definition license_side (text_lower : string) : string :=
  if PyStr.any_in Keywords.front_text text_lower then "DriverLicense - Front Side"
  else if PyStr.any_in Keywords.back_text text_lower then "DriverLicense - Back Side"
  else "DriverLicense - Front Side".

(** The branch taken once the name has matched a license keyword. *)
Definition license_by_name (name text_lower : string) (all_files : option (list string))
  : string :=
  if PyStr.contains "front" name then "DriverLicense - Front Side"
  else if PyStr.contains "back" name then "DriverLicense - Back Side"
  else
    match all_files with
    | Some (f :: fs) =>
        if (dl_count (f :: fs) =? 1)%nat then license_side text_lower
        else "DriverLicense"
    | _ => "DriverLicense"
    end.

(** The fallback on the text, reached when no name keyword matched. *)
Definition type_by_text (text_lower : string) : string :=
  if PyStr.contains "driver" text_lower && PyStr.contains "license" text_lower then
    if PyStr.contains "back" text_lower then "DriverLicense - Back Side"
    else if PyStr.contains "front" text_lower then "DriverLicense - Front Side"
    else "DriverLicense"
  else if PyStr.any_in Keywords.title_text text_lower then "Title"
  else if PyStr.any_in Keywords.income_text text_lower then
    if PyStr.any_in Keywords.income_residence_text text_lower then "ProofOfResidence"
    else "ProofOfIncome"
  else if PyStr.any_in Keywords.residence_text text_lower then "ProofOfResidence"
  else if PyStr.any_in Keywords.insurance_text text_lower then "Insurance"
  else if PyStr.contains "registration" text_lower then "Registration"
  else if PyStr.contains "odometer" text_lower || PyStr.contains "mileage" text_lower
       then "Odometer"
  else if PyStr.any_in Keywords.reference_text text_lower then "References"
  else "Generic".

Definition detect_document_type (filename text : string)
  (all_files : option (list string)) : string :=
  let name := normalized_name filename in
  let text_lower := PyStr.lower text in
  if PyStr.any_in Keywords.residence_name name then "ProofOfResidence"
  else if PyStr.any_in Keywords.income_name name then "ProofOfIncome"
  else if PyStr.any_in Keywords.title_name name then "Title"
  else if PyStr.any_in Keywords.insurance_name name then "Insurance"
  else if PyStr.any_in Keywords.license_name name then
         license_by_name name text_lower all_files
  else if PyStr.any_in Keywords.registration_name name then "Registration"
  else if PyStr.any_in Keywords.odometer_name name then "Odometer"
  else if PyStr.any_in Keywords.reference_name name then "References"
  else type_by_text text_lower.

(** ** Exceptions and the calls to the collaborators *)

Inductive pyexn : Type :=
| JSONDecodeError
| TypeError
| AttributeError
| Failure (what : string).     (* any other [Exception] of a collaborator *)

Inductive result (A : Type) : Type :=
| Ok (a : A)
| Raise (e : pyexn).

Arguments Ok {A} a.
Arguments Raise {A} e.

Definition rbind {A B : Type} (r : result A) (f : A -> result B) : result B :=
  match r with
  | Ok a => f a
  | Raise e => Raise e
  end.

Declare Scope py_scope.
Delimit Scope py_scope with py.
Notation "x <- r ;; k" := (rbind r (fun x => k))
  (at level 100, r at next level, right associativity) : py_scope.

(** What a request to the generative model is built from: the two prompts
    are fixed texts around these values. *)
Inductive chat_request : Type :=
| Structure (doc_type text : string) (confidence : float)
| Refine (raw_text : string) (json_data : json).

(** A computation that may call the text extractor ([ocr.analyze_document],
    answering with the text and the confidence), the generative model
    ([chat.completions.create], answering with the content of the first
    choice) or the clock; each answer is an exception or a value. *)
Inductive prog (A : Type) : Type :=
| Ret (a : A)
| Analyze (data : string) (k : result (string * float) -> prog A)
| Complete (req : chat_request) (k : result string -> prog A)
| Now (k : string -> prog A).

Arguments Ret {A} a.
Arguments Analyze {A} data k.
Arguments Complete {A} req k.
Arguments Now {A} k.

Fixpoint bind {A B : Type} (p : prog A) (f : A -> prog B) : prog B :=
  match p with
  | Ret a => f a
  | Analyze data k => Analyze data (fun r => bind (k r) f)
  | Complete req k => Complete req (fun r => bind (k r) f)
  | Now k => Now (fun t => bind (k t) f)
  end.

(** [bind] that stops at the first exception. *)
Definition ebind {A B : Type} (p : prog (result A)) (f : A -> prog (result B))
  : prog (result B) :=
  bind p (fun r => match r with Ok a => f a | Raise e => Ret (Raise e) end).

(** The collaborators of one run. *)
Record world : Type := World {
  ocr : string -> result (string * float);
  model : chat_request -> result string;
  clock : string
}.

Fixpoint run {A : Type} (w : world) (p : prog A) : A :=
  match p with
  | Ret a => a
  | Analyze data k => run w (k (ocr w data))
  | Complete req k => run w (k (model w req))
  | Now k => run w (k (clock w))
  end.

(** The requests sent to the generative model during a run, in order. *)
Fixpoint model_calls {A : Type} (w : world) (p : prog A) : list chat_request :=
  match p with
  | Ret _ => []
  | Analyze data k => model_calls w (k (ocr w data))
  | Complete req k => req :: model_calls w (k (model w req))
  | Now k => model_calls w (k (clock w))
  end.

(** ** Python operations on a value that may or may not be a [dict] *)

Definition is_str (k : string) (v : json) : bool :=
  match v with JStr s => String.eqb k s | _ => false end.

(** [k in x] *)
Definition py_in (k : string) (x : json) : result bool :=
  match x with
  | JObj d => Ok (dict_has k d)
  | JArr l => Ok (existsb (is_str k) l)
  | JStr s => Ok (PyStr.contains k s)
  | _ => Raise TypeError
  end.

(** [x[k] = v] for a string [k] *)
Definition py_setitem (x : json) (k : string) (v : json) : result json :=
  match x with
  | JObj d => Ok (JObj (dict_set k v d))
  | _ => Raise TypeError
  end.

(** [x.get(k, default)] *)
Definition py_get (x : json) (k : string) (default : json) : result json :=
  match x with
  | JObj d => Ok (match dict_get k d with Some v => v | None => default end)
  | _ => Raise AttributeError
  end.

(** [x.lower()] *)
Definition py_lower (x : json) : result string :=
  match x with
  | JStr s => Ok (PyStr.lower s)
  | _ => Raise AttributeError
  end.

(** The truth value of [readings.get(k)]. *)
Definition reading (k : string) (readings : dict string) : option string :=
  match dict_get k readings with
  | Some v => if nonempty v then Some v else None
  | None => None
  end.

(** ** The structuring engine ([OpenAIMapper.normalize_text]) and the
    license refiner ([main.refine_license_fields]) *)

Section Mapper.
Open Scope py_scope.

(** [float(a) < float(b)], [json.loads], [str(e)] and [json.dumps]. *)
Variable float_lt : string -> string -> bool.
Variable json_loads : string -> result json.
Variable str_exn : pyexn -> string.
Variable json_dumps : json -> string.

Definition no_text_error : json :=
  JObj [("error", JStr "No text provided for normalization.")].

Definition invalid_json_error : json :=
  JObj [("error", JStr "Invalid JSON returned from model.")].

Definition normalization_failed (e : pyexn) : json :=
  JObj [("error", JStr "Text normalization failed"); ("message", JStr (str_exn e))].

(** [text.split("```")[-1].strip()] *)
Definition after_last_fence (text : string) : string :=
  PyStr.strip (last (PyStr.split "```" text) EmptyString).

Definition _safe_parse_json (text : string) : result json :=
  match json_loads text with
  | Ok v => Ok v
  | Raise JSONDecodeError =>
      match json_loads (after_last_fence text) with
      | Ok v => Ok v
      | Raise _ => Ok invalid_json_error
      end
  | Raise e => Raise e
  end.

(** [if k not in x: x[k] = v] *)
Definition ensure (k : string) (v : json) (x : json) : result json :=
  present <- py_in k x ;;
  if present then Ok x else py_setitem x k v.

(** [doc_type] or [text] mentions the odometer. *)
Definition mentions_odometer (doc_type text : string) : bool :=
  PyStr.contains "odometer" (PyStr.lower doc_type)
  || PyStr.contains "odometer" (PyStr.lower text).

(** The merge of the readings into the record (lines 210 to 216). *)
Definition merge_readings (doc_type text : string) (result_json : json)
  : result json :=
  if mentions_odometer doc_type text then
    let readings := _extract_odometer_and_trip_values float_lt text in
    result_json <-
      match reading "OdometerReading" readings with
      | Some odo =>
          result_json <- py_setitem result_json "OdometerReading" (JStr odo) ;;
          py_setitem result_json "Unit"
            (JStr (match dict_get "Unit" readings with
                   | Some u => u
                   | None => "miles"
                   end))
      | None => Ok result_json
      end ;;
    match reading "TripReading" readings with
    | Some trip => py_setitem result_json "TripReading" (JStr trip)
    | None => Ok result_json
    end
  else Ok result_json.

(** The body of the [try] block, from the answer of the model on. *)
Definition structured (text doc_type : string) (confidence : float)
  (response : result string) : result json :=
  content <- response ;;
  let output_text := PyStr.strip content in
  result_json <- _safe_parse_json output_text ;;
  result_json <- ensure "DocumentType" (JStr doc_type) result_json ;;
  result_json <- ensure "ConfidenceScore" (JFloat confidence) result_json ;;
  doc_type_val <- py_get result_json "DocumentType" (JStr doc_type) ;;
  conf_score_val <- py_get result_json "ConfidenceScore" (JFloat confidence) ;;
  let result_json := _clean_empty_fields result_json in
  result_json <- py_setitem result_json "DocumentType" doc_type_val ;;
  result_json <- py_setitem result_json "ConfidenceScore" conf_score_val ;;
  merge_readings doc_type text result_json.

(** [not text or not text.strip()] *)
Definition blank (text : string) : bool :=
  negb (nonempty text) || negb (nonempty (PyStr.strip text)).

Definition normalize_text (text doc_type : string) (confidence : float)
  : prog json :=
  if blank text then Ret no_text_error
  else
    Complete (Structure doc_type text confidence)
      (fun response =>
         match structured text doc_type confidence response with
         | Ok result_json => Ret result_json
         | Raise e => Ret (normalization_failed e)
         end).

(** [json_data.get("DocumentType", "").lower().replace(" ", "")] *)
Definition license_key (json_data : json) : result string :=
  doc_type <- py_get json_data "DocumentType" (JStr "") ;;
  lowered <- py_lower doc_type ;;
  Ok (PyStr.replace " " "" lowered).

(** The parse of the refiner's answer (line 228). *)
Definition refined_of (response : result string) : result json :=
  content <- response ;;
  let cleaned_text := PyStr.strip content in
  if PyStr.contains "```" cleaned_text
  then json_loads (after_last_fence cleaned_text)
  else json_loads cleaned_text.

Definition refine_license_fields (json_data : json) (raw_text : string)
  : prog (result json) :=
  match license_key json_data with
  | Raise e => Ret (Raise e)
  | Ok doc_type =>
      if negb (PyStr.contains "driverlicense" doc_type) then Ret (Ok json_data)
      else
        Complete (Refine raw_text json_data)
          (fun response =>
             match refined_of response with
             | Ok refined => Ret (Ok refined)
             | Raise _ => Ret (Ok json_data)
             end)
  end.

(** ** The batch loop of [main.py] *)

(** [Path(doc_name).name] and [.stem] (the final component without its
    last suffix), as pathlib computes them for POSIX paths. *)
Definition path_name (p : string) : string :=
  last (filter (fun c => nonempty c && negb (String.eqb c ".")) (PyStr.split "/" p))
       EmptyString.

(** [s.rfind(".")] *)
Fixpoint rfind_dot (s : string) : option nat :=
  match s with
  | EmptyString => None
  | String a t =>
      match rfind_dot t with
      | Some i => Some (S i)
      | None => if Ascii.eqb a "."%char then Some 0 else None
      end
  end.

Definition stem (p : string) : string :=
  let name := path_name p in
  match rfind_dot name with
  | Some i =>
      if (0 <? i)%nat && (i <? String.length name - 1)%nat
      then PyStr.slice 0 i name
      else name
  | None => name
  end.

Record upload : Type := Upload { name : string; data : string }.

(** A value of [generated_jsons] and a row of [results_summary]. *)
Record generated : Type := Generated {
  g_bytes : string;
  g_doc_name : string;
  g_data : string;
  g_detected_type : string;
  g_normalized : json
}.

Inductive summary_row : Type :=
| Succeeded (document detected_type json_file : string)
| Errored (document error : string).

Record batch : Type := Batch {
  results_summary : list summary_row;
  generated_jsons : dict generated
}.

Definition lift {A : Type} (r : result A) : prog (result A) := Ret r.

(** The body of the [try] block of the loop, for one uploaded file. *)
Definition process_document (all_filenames : list string) (f : upload)
  : prog (result (string * generated)) :=
  let doc_name := name f in
  ebind (Analyze (data f) Ret) (fun ocr_result =>
  let text := fst ocr_result in
  let detected_type := detect_document_type doc_name text (Some all_filenames) in
  bind (normalize_text text detected_type (snd ocr_result)) (fun normalized =>
  ebind (lift (license_key normalized)) (fun key =>
  ebind (if PyStr.contains "driverlicense" key
         then refine_license_fields normalized text
         else Ret (Ok normalized)) (fun normalized =>
  ebind (lift (py_setitem normalized "RawData"
                 (JObj [("text", JStr text); ("filename", JStr doc_name)])))
    (fun normalized =>
  Now (fun stamp =>
  ebind (lift (py_setitem normalized "ProcessedDate" (JStr stamp)))
    (fun normalized =>
  let json_name := (stem doc_name ++ ".json")%string in
  Ret (Ok (json_name,
           Generated (json_dumps normalized) doc_name (data f) detected_type
                     normalized))))))))).

(** What one turn of the loop leaves in the two collections. *)
Definition record_outcome (doc_name : string) (b : batch)
  (r : result (string * generated)) : batch :=
  match r with
  | Ok (json_name, g) =>
      Batch (results_summary b ++ [Succeeded doc_name (g_detected_type g) json_name])
            (dict_set json_name g (generated_jsons b))
  | Raise e =>
      Batch (results_summary b ++ [Errored doc_name (str_exn e)])
            (generated_jsons b)
  end.

Fixpoint process_from (all_filenames : list string) (files : list upload)
  (b : batch) : prog batch :=
  match files with
  | [] => Ret b
  | f :: fs =>
      bind (process_document all_filenames f) (fun r =>
      process_from all_filenames fs (record_outcome (name f) b r))
  end.

Definition process_documents (uploaded_files : list upload) : prog batch :=
  process_from (map name uploaded_files) uploaded_files (Batch [] []).

End Mapper.

(** ** Stripped trees

    The shape [_clean_empty_fields] produces: every object has distinct keys,
    no array is empty, and neither an array nor an object holds null, [[]]
    or [{}]. *)
Inductive Stripped : json -> Prop :=
| Stripped_null : Stripped JNull
| Stripped_bool b : Stripped (JBool b)
| Stripped_int z : Stripped (JInt z)
| Stripped_float f : Stripped (JFloat f)
| Stripped_str s : Stripped (JStr s)
| Stripped_arr l :
    l <> [] ->
    Forall (fun v => keep v = true) l ->
    Forall Stripped l ->
    Stripped (JArr l)
| Stripped_obj d :
    NoDup (keys d) ->
    Forall (fun kv => keep (snd kv) = true) d ->
    Forall (fun kv => Stripped (snd kv)) d ->
    Stripped (JObj d).


(** The name reaches the license branch: no keyword of the four lists tried
    before it occurs in the name. *)
Definition reaches_license_branch (name : string) : bool :=
  negb (PyStr.any_in Keywords.residence_name name)
  && negb (PyStr.any_in Keywords.income_name name)
  && negb (PyStr.any_in Keywords.title_name name)
  && negb (PyStr.any_in Keywords.insurance_name name).




(** ** A comparison of numerals

    [decimal_lt a b] compares the exact values of two numerals of the form
    [\d+(\.\d+)?].  Rounding to a double is monotone, so [float(a) < float(b)]
    implies [decimal_lt a b = true], and the two agree whenever [a] and [b]
    do not round to the same double. *)

(** The digits of a numeral as an integer, with the number of digits after
    the point. *)
Fixpoint numeral_from (s : string) (seen_point : bool) (value : Z) (scale : nat)
  : Z * nat :=
  match s with
  | EmptyString => (value, scale)
  | String c s' =>
      if PyStr.is_digit c
      then numeral_from s' seen_point
             (10 * value + Z.of_nat (PyStr.code c - 48))%Z
             (if seen_point then S scale else scale)
      else numeral_from s' true value scale
  end.

Definition numeral (s : string) : Z * nat := numeral_from s false 0%Z 0.

Definition decimal_lt (a b : string) : bool :=
  let (va, sa) := numeral a in
  let (vb, sb) := numeral b in
  (va * 10 ^ Z.of_nat sb <? vb * 10 ^ Z.of_nat sa)%Z.

(** ** The record after the required keys are restored and the readings
    merged, on dictionaries *)

Definition get_default {V : Type} (k : string) (default : V) (d : dict V) : V :=
  match dict_get k d with
  | Some v => v
  | None => default
  end.

(** The record once [DocumentType] and [ConfidenceScore] have been ensured,
    the empty fields stripped and the two keys put back. *)
Definition restored (doc_type : string) (confidence : float) (d : dict json)
  : dict json :=
  let d1 := if dict_has "DocumentType" d then d
            else dict_set "DocumentType" (JStr doc_type) d in
  let d2 := if dict_has "ConfidenceScore" d1 then d1
            else dict_set "ConfidenceScore" (JFloat confidence) d1 in
  dict_set "ConfidenceScore" (get_default "ConfidenceScore" (JFloat confidence) d2)
    (dict_set "DocumentType" (get_default "DocumentType" (JStr doc_type) d2)
       (fold_left (clean_item _clean_empty_fields) d2 [])).

(** The three keys the merge of the readings may write. *)
Definition reading_key (k : string) : bool :=
  String.eqb k "OdometerReading" || String.eqb k "Unit" || String.eqb k "TripReading".

(** ** Stand-ins for the examples

    [loads_sample] answers as [json.loads] does on the strings it lists, the
    only ones the examples pass to it; [exn_text] and [dumps_sample] stand
    for [str(e)] and [json.dumps]. *)

Definition dq : string := String (ascii_of_nat 34) EmptyString.

(** The text [{"DocumentType": null, "ConfidenceScore": []}]. *)
Definition null_keys_text : string :=
  ("{" ++ dq ++ "DocumentType" ++ dq ++ ": null, "
       ++ dq ++ "ConfidenceScore" ++ dq ++ ": []}")%string.

Definition loads_sample (s : string) : result json :=
  match
    dict_get s
      [("{}", Ok (JObj []));
       ("5", Ok (JInt 5));
       (null_keys_text,
         Ok (JObj [("DocumentType", JNull); ("ConfidenceScore", JArr [])]));
       ("", Raise JSONDecodeError);
       ("```{}```", Raise JSONDecodeError);
       ("not json", Raise JSONDecodeError)]
  with
  | Some r => r
  | None => Raise (Failure "not tabulated")
  end.

Definition exn_text (e : pyexn) : string :=
  match e with
  | JSONDecodeError => "JSONDecodeError"
  | TypeError => "TypeError"
  | AttributeError => "AttributeError"
  | Failure what => what
  end.

Definition dumps_sample (x : json) : string :=
  match x with
  | JObj d => String.concat "," (keys d)
  | _ => ""
  end.

(** A world whose text extractor reads [text] with confidence [confidence]
    from every document and whose model answers [answer] to every request. *)
Definition sample_world (text : string) (confidence : float)
  (answer : result string) : world :=
  World (fun _ => Ok (text, confidence)) (fun _ => answer) "2026-01-01 00:00:00".

(** ** The signals of the classifier *)

(** The labels [detect_document_type] can return. *)
Definition labels : list string :=
  ["ProofOfResidence"; "ProofOfIncome"; "Title"; "Insurance";
   "DriverLicense - Front Side"; "DriverLicense - Back Side"; "DriverLicense";
   "Registration"; "Odometer"; "References"; "Generic"].

(** Some keyword list of the first stage occurs in the normalized name. *)
Definition name_keyword (name : string) : bool :=
  PyStr.any_in Keywords.residence_name name
  || PyStr.any_in Keywords.income_name name
  || PyStr.any_in Keywords.title_name name
  || PyStr.any_in Keywords.insurance_name name
  || PyStr.any_in Keywords.license_name name
  || PyStr.any_in Keywords.registration_name name
  || PyStr.any_in Keywords.odometer_name name
  || PyStr.any_in Keywords.reference_name name.

(** Some rule of the second stage applies to the lower-cased text. *)
Definition text_keyword (text_lower : string) : bool :=
  (PyStr.contains "driver" text_lower && PyStr.contains "license" text_lower)
  || PyStr.any_in Keywords.title_text text_lower
  || PyStr.any_in Keywords.income_text text_lower
  || PyStr.any_in Keywords.residence_text text_lower
  || PyStr.any_in Keywords.insurance_text text_lower
  || PyStr.contains "registration" text_lower
  || (PyStr.contains "odometer" text_lower || PyStr.contains "mileage" text_lower)
  || PyStr.any_in Keywords.reference_text text_lower.

(** The name alone fixes the label: a list tried before the license list
    matches, or the license list does not and a later list does. *)
Definition name_decides (name : string) : bool :=
  PyStr.any_in Keywords.residence_name name
  || PyStr.any_in Keywords.income_name name
  || PyStr.any_in Keywords.title_name name
  || PyStr.any_in Keywords.insurance_name name
  || (negb (PyStr.any_in Keywords.license_name name)
      && (PyStr.any_in Keywords.registration_name name
          || PyStr.any_in Keywords.odometer_name name
          || PyStr.any_in Keywords.reference_name name)).

(** The document a row of the summary is about. *)
Definition row_document (r : summary_row) : string :=
  match r with
  | Succeeded document _ _ => document
  | Errored document _ => document
  end.

(** The [RawData] entry of the record of a document. *)
Definition raw_data (text doc_name : string) : json :=
  JObj [("text", JStr text); ("filename", JStr doc_name)].

(** ** ASCII texts *)

(** [s.isascii()]: every character of [s] is below 128.  On such texts the
    classes of [PyStr] are those of Python's [str] methods and of [\s], [\d]
    and [\w] in its regular expressions. *)
Definition is_ascii (s : string) : bool :=
  forallb (fun c => (PyStr.code c <? 128)%nat) (list_ascii_of_string s).

(** ** Texts without digits *)

Fixpoint no_digit (s : string) : bool :=
  match s with
  | EmptyString => true
  | String c s' => negb (PyStr.is_digit c) && no_digit s'
  end.

(** A pattern every match of which holds a digit. *)
Fixpoint needs_digit (r : Re.regex) : bool :=
  match r with
  | Re.Chr Re.Digit => true
  | Re.Rep (S _) Re.Digit => true
  | Re.Cat r1 r2 => needs_digit r1 || needs_digit r2
  | Re.Alt r1 r2 => needs_digit r1 && needs_digit r2
  | Re.Grp r' => needs_digit r'
  | _ => false
  end.

(** [s] is what remains of [t] after some prefix. *)
Definition Suffix (s t : string) : Prop := exists pre, t = (pre ++ s)%string.

(** A world as [sample_world] whose model answers [structured] to the
    requests of [normalize_text] and [refined] to those of the refiner. *)
Definition refining_world (text : string) (confidence : float)
  (structured refined : result string) : world :=
  World (fun _ => Ok (text, confidence))
        (fun req => match req with
                    | Structure _ _ _ => structured
                    | Refine _ _ => refined
                    end)
        "2026-01-01 00:00:00".

(** ** Folders of the input container ([BlobHelper.list_folders]) *)

(** The order in which Python compares two [str]: character by character,
    by code, a proper prefix first. *)
Module StringOrder <: Orders.TotalLeBool.
Definition t : Type := string.
Definition leb (a b : string) : bool := String.leb a b.
Lemma leb_total : forall a b : string, leb a b = true \/ leb b a = true.
Proof. exact String.leb_total. Qed.
End StringOrder.

Module StringSort := Mergesort.Sort StringOrder.

(** [parts[0]] when [blob.name.split("/")] has more than one part. *)
Definition top_folder (blob_name : string) : list string :=
  match PyStr.split "/" blob_name with
  | folder :: _ :: _ => [folder]
  | _ => []
  end.

(** The set filled by the loop, as a list without repetition. *)
Definition folder_set (blob_names : list string) : list string :=
  nodup string_dec (flat_map top_folder blob_names).

(** [sorted(list(folders))] over the names that [list_blobs] yields. *)
Definition list_folders (blob_names : list string) : list string :=
  StringSort.sort (folder_set blob_names).

(** ** The text of a document ([DocumentIntelligenceHelper.analyze_document])

    A page is given by the contents of its lines.  The lines of a page are
    joined by blanks, the pages by line feeds, and the whole is stripped. *)

Definition line_feed : string := String (ascii_of_nat 10) EmptyString.

(** [" ".join([line.content for line in page.lines])] *)
Definition page_text (lines : list string) : string := String.concat " " lines.

(** ["\n".join(full_text_lines).strip()] *)
Definition full_text (pages : list (list string)) : string :=
  PyStr.strip (String.concat line_feed (map page_text pages)).

(** All the characters of [s] are white space. *)
Definition all_space (s : string) : bool :=
  forallb PyStr.is_space (list_ascii_of_string s).

(** * Properties *)

(** ** Dictionaries *)

Section DictFacts.
Context {V : Type}.
Implicit Types (d : dict V) (k : string) (v : V).

Lemma dict_get_set_same k v d : dict_get k (dict_set k v d) = Some v.
Proof.
  induction d as [|[k' v'] d IH]; simpl.
  - now rewrite String.eqb_refl.
  - destruct (String.eqb k k') eqn:E; simpl; rewrite E; auto.
Qed.

Lemma dict_get_set_other k k' v d :
  k <> k' -> dict_get k' (dict_set k v d) = dict_get k' d.
Proof.
  intros Hne. induction d as [|[k0 v0] d IH]; simpl.
  - destruct (String.eqb k' k) eqn:E; auto.
    apply String.eqb_eq in E. congruence.
  - destruct (String.eqb k k0) eqn:E; simpl.
    + apply String.eqb_eq in E. subst k0.
      destruct (String.eqb k' k) eqn:E'; auto.
      apply String.eqb_eq in E'. congruence.
    + now rewrite IH.
Qed.

Lemma dict_get_none_keys k d : dict_get k d = None <-> ~ In k (keys d).
Proof.
  induction d as [|[k' v'] d IH]; simpl.
  - tauto.
  - destruct (String.eqb k k') eqn:E.
    + apply String.eqb_eq in E. subst. split; [discriminate | tauto].
    + apply String.eqb_neq in E. rewrite IH. split; intuition congruence.
Qed.

Lemma dict_set_new k v d : ~ In k (keys d) -> dict_set k v d = d ++ [(k, v)].
Proof.
  induction d as [|[k' v'] d IH]; simpl; intros Hk; auto.
  destruct (String.eqb k k') eqn:E.
  - apply String.eqb_eq in E. subst k'. tauto.
  - rewrite IH; tauto.
Qed.

Lemma dict_set_values (Q : V -> Prop) k v d :
  Q v -> Forall (fun kv => Q (snd kv)) d ->
  Forall (fun kv => Q (snd kv)) (dict_set k v d).
Proof.
  intros Hv. induction 1 as [|[k' v'] d Hx Hd IH]; simpl.
  - auto.
  - destruct (String.eqb k k'); constructor; auto.
Qed.

Lemma keys_dict_set k v d :
  keys (dict_set k v d) = if dict_has k d then keys d else keys d ++ [k].
Proof.
  unfold dict_has. induction d as [|[k' v'] d IH]; simpl; auto.
  destruct (String.eqb k k') eqn:E; simpl; auto.
  rewrite IH. now destruct (dict_get k d).
Qed.

Lemma dict_set_nodup k v d : NoDup (keys d) -> NoDup (keys (dict_set k v d)).
Proof.
  intros Hd. rewrite keys_dict_set. unfold dict_has.
  destruct (dict_get k d) eqn:E; auto.
  apply dict_get_none_keys in E.
  apply NoDup_app; auto.
  - constructor; [tauto | constructor].
  - intros x Hx [<-|[]]. tauto.
Qed.

End DictFacts.

(** ** Empty-field stripping *)

Section CleanFacts.
Variable clean : json -> json.

Lemma clean_items_values (Q : json -> Prop) d :
  Forall (fun kv => keep (clean (snd kv)) = true -> Q (clean (snd kv))) d ->
  forall acc,
    Forall (fun kv => Q (snd kv)) acc ->
    Forall (fun kv => Q (snd kv)) (fold_left (clean_item clean) d acc).
Proof.
  induction 1 as [|kv d Hkv Hd IH]; simpl; intros acc Hacc; auto.
  apply IH. unfold clean_item.
  destruct (keep (clean (snd kv))) eqn:E; auto.
  apply dict_set_values; auto.
Qed.

Lemma clean_items_nodup d :
  forall acc, NoDup (keys acc) ->
              NoDup (keys (fold_left (clean_item clean) d acc)).
Proof.
  induction d as [|kv d IH]; simpl; intros acc Hacc; auto.
  apply IH. unfold clean_item.
  destruct (keep (clean (snd kv))); auto using dict_set_nodup.
Qed.

Lemma clean_items_dropped k d :
  (forall v, In (k, v) d -> keep (clean v) = false) ->
  forall acc, dict_get k acc = None ->
              dict_get k (fold_left (clean_item clean) d acc) = None.
Proof.
  induction d as [|[k' v'] d IH]; simpl; intros Hk acc Hacc; auto.
  apply IH; [intros v Hv; apply Hk; auto|].
  unfold clean_item; simpl.
  destruct (keep (clean v')) eqn:E; auto.
  rewrite dict_get_set_other; auto.
  intros ->. rewrite Hk in E; [discriminate | auto].
Qed.

Lemma clean_items_fixed d :
  Forall (fun kv => clean (snd kv) = snd kv /\ keep (snd kv) = true) d ->
  forall acc, NoDup (keys (acc ++ d)) ->
              fold_left (clean_item clean) d acc = acc ++ d.
Proof.
  induction 1 as [|[k v] d [Hfix Hkeep] Hd IH]; simpl; intros acc Hnd.
  - now rewrite app_nil_r.
  - simpl in *. unfold clean_item at 2; simpl. rewrite Hfix, Hkeep.
    assert (Hk : ~ In k (keys acc)).
    { unfold keys in *. rewrite map_app in Hnd; simpl in Hnd.
      apply NoDup_remove_2 in Hnd. intros Hin. apply Hnd.
      apply in_or_app. auto. }
    rewrite dict_set_new by exact Hk.
    rewrite IH; rewrite <- app_assoc; auto.
Qed.

End CleanFacts.

Lemma forallb_Forall {A : Type} (p : A -> bool) (l : list A) :
  forallb p l = true <-> Forall (fun x => p x = true) l.
Proof.
  rewrite forallb_forall, Forall_forall. tauto.
Qed.

Lemma filter_fixed {A : Type} (p : A -> bool) (l : list A) :
  Forall (fun x => p x = true) l -> filter p l = l.
Proof.
  induction 1 as [|x l Hx Hl IH]; simpl; auto.
  now rewrite Hx, IH.
Qed.

Lemma map_fixed {A : Type} (f : A -> A) (l : list A) :
  Forall (fun x => f x = x) l -> map f l = l.
Proof.
  induction 1 as [|x l Hx Hl IH]; simpl; congruence.
Qed.

(** What an array is cleaned to. *)
Lemma clean_array l :
  _clean_empty_fields (JArr l) =
    match filter keep (map _clean_empty_fields l) with
    | [] => JNull
    | cleaned => JArr cleaned
    end.
Proof. reflexivity. Qed.

Lemma clean_object d :
  _clean_empty_fields (JObj d) =
    JObj (fold_left (clean_item _clean_empty_fields) d []).
Proof. reflexivity. Qed.

Lemma no_empty_values_clean x : no_empty_values (_clean_empty_fields x) = true.
Proof.
  induction x as [| | | | |l IH|d IH] using json_deep_ind; try reflexivity.
  - rewrite clean_array.
    destruct (filter keep (map _clean_empty_fields l)) as [|v vs] eqn:E; auto.
    change (forallb no_empty_values (v :: vs) = true).
    rewrite <- E. apply forallb_forall.
    intros y Hy. apply filter_In in Hy as [Hy _].
    apply in_map_iff in Hy as (y0 & <- & Hy0).
    rewrite Forall_forall in IH. auto.
  - rewrite clean_object.
    change (forallb (fun kv => keep (snd kv) && no_empty_values (snd kv))
              (fold_left (clean_item _clean_empty_fields) d []) = true).
    apply forallb_Forall.
    apply (clean_items_values _clean_empty_fields
             (fun v => keep v && no_empty_values v = true)); auto.
    eapply Forall_impl; [|exact IH]. simpl. intros kv -> ->. reflexivity.
  Qed.

Lemma stripped_clean x : Stripped (_clean_empty_fields x).
Proof.
  induction x as [| | | | |l IH|d IH] using json_deep_ind;
    try (now constructor).
  - rewrite clean_array.
    destruct (filter keep (map _clean_empty_fields l)) as [|v vs] eqn:E;
      [constructor|].
    rewrite <- E. constructor.
    + rewrite E. discriminate.
    + apply Forall_forall. intros y Hy. now apply filter_In in Hy.
    + apply Forall_forall. intros y Hy. apply filter_In in Hy as [Hy _].
      apply in_map_iff in Hy as (y0 & <- & Hy0).
      rewrite Forall_forall in IH. auto.
  - rewrite clean_object. constructor.
    + apply clean_items_nodup. constructor.
    + apply (clean_items_values _clean_empty_fields (fun v => keep v = true)); auto.
      apply Forall_forall. auto.
    + apply (clean_items_values _clean_empty_fields Stripped); auto.
      eapply Forall_impl; [|exact IH]. auto.
Qed.

Lemma clean_stripped x : Stripped x -> _clean_empty_fields x = x.
Proof.
  induction x as [| | | | |l IH|d IH] using json_deep_ind; auto.
  - intros Hs. inversion Hs as [| | | | |l' Hne Hkeep Hall|]; subst.
    rewrite clean_array.
    assert (Hmap : map _clean_empty_fields l = l).
    { apply map_fixed. rewrite Forall_forall in *. auto. }
    rewrite Hmap, (filter_fixed keep l Hkeep).
    destruct l; congruence.
  - intros Hs. inversion Hs as [| | | | | |d' Hnd Hkeep Hall]; subst.
    rewrite clean_object. f_equal.
    apply (clean_items_fixed _clean_empty_fields d); auto.
    rewrite Forall_forall in *. auto.
Qed.

(** C1. In the result of [_clean_empty_fields] no key, at any depth, is
    bound to null, to an empty sequence or to an empty mapping; a key whose
    value cleans to one of these is absent from the cleaned mapping, and a
    sequence all of whose elements are dropped is cleaned to null, so that its
    parent drops it in turn. *)
Theorem clean_leaves_no_empty_value :
  forall x : json,
    no_empty_values (_clean_empty_fields x) = true
    /\ (forall l,
          x = JArr l ->
          Forall (fun v => keep (_clean_empty_fields v) = false) l ->
          _clean_empty_fields x = JNull /\ keep (_clean_empty_fields x) = false)
    /\ (forall d k,
          x = JObj d ->
          (forall v, In (k, v) d -> keep (_clean_empty_fields v) = false) ->
          exists d', _clean_empty_fields x = JObj d' /\ dict_get k d' = None).
Proof.
  intros x. split; [apply no_empty_values_clean|]. split.
  - intros l -> Hall. rewrite clean_array.
    assert (E : filter keep (map _clean_empty_fields l) = []).
    { induction Hall as [|v l Hv Hl IH]; simpl; auto. now rewrite Hv. }
    now rewrite E.
  - intros d k -> Hk. rewrite clean_object. eexists. split; [reflexivity|].
    apply clean_items_dropped; auto.
Qed.

(** C6. Stripping twice is stripping once. *)
Theorem clean_idempotent :
  forall x : json,
    _clean_empty_fields (_clean_empty_fields x) = _clean_empty_fields x.
Proof.
  intros x. apply clean_stripped, stripped_clean.
Qed.

Lemma clean_leaves_no_empty_value_witness :
  exists d',
    _clean_empty_fields
      (JObj [("name", JStr "Ann"); ("tags", JArr [JNull; JObj []; JArr [JNull]])])
    = JObj d'
    /\ dict_get "tags" d' = None.
Proof.
  refine (proj2 (proj2 (clean_leaves_no_empty_value _)) _ "tags" eq_refl _).
  intros v [H|[H|[]]]; inversion H; reflexivity.
Defined.

(** ** Substrings *)


Lemma contains_cons k c s :
  PyStr.contains k (String c s) = String.prefix k (String c s) || PyStr.contains k s.
Proof. reflexivity. Qed.






(** ** Document-type detection *)

Lemma reaches_license_branch_spec name :
  reaches_license_branch name = true ->
  PyStr.any_in Keywords.residence_name name = false
  /\ PyStr.any_in Keywords.income_name name = false
  /\ PyStr.any_in Keywords.title_name name = false
  /\ PyStr.any_in Keywords.insurance_name name = false.
Proof.
  unfold reaches_license_branch. rewrite !andb_true_iff, !negb_true_iff. tauto.
Qed.




(** C4, as the code has it.  A file name that contains "title" once
    lower-cased and freed of underscores, hyphens and blanks, and no keyword
    of the residence and income lists, which are tried first, is classified
    as "Title" whatever the text and the other files of the batch. *)
Theorem title_by_filename :
  forall (filename text : string) (all_files : option (list string)),
    PyStr.contains "title" (normalized_name filename) = true ->
    PyStr.any_in Keywords.residence_name (normalized_name filename) = false ->
    PyStr.any_in Keywords.income_name (normalized_name filename) = false ->
    detect_document_type filename text all_files = "Title".
Proof.
  intros filename text all_files Ht Hr Hi.
  unfold detect_document_type. cbv zeta. rewrite Hr, Hi.
  assert (E : PyStr.any_in Keywords.title_name (normalized_name filename) = true).
  { unfold PyStr.any_in, Keywords.title_name. simpl existsb. now rewrite Ht. }
  now rewrite E.
Qed.

Lemma title_by_filename_witness :
  detect_document_type "Vehicle_Title-2024 scan.PDF" "lease agreement" None = "Title".
Proof.
  apply (title_by_filename "Vehicle_Title-2024 scan.PDF" "lease agreement" None);
    reflexivity.
Defined.

(** C4 as stated fails: the residence keywords are tried before the title
    keywords. *)
Lemma residence_keyword_shadows_title :
  ~ (forall (filename text : string) (all_files : option (list string)),
        PyStr.contains "title" (normalized_name filename) = true ->
        detect_document_type filename text all_files = "Title").
Proof.
  intros H.
  specialize (H "Title_Lease.pdf" "" None eq_refl).
  vm_compute in H. discriminate H.
Qed.





(** ** Odometer and trip readings *)

Lemma tidy_guard v : (if nonempty v then tidy v else v) = tidy v.
Proof. now destruct v. Qed.

Lemma nonempty_false v : nonempty v = false -> v = EmptyString.
Proof. now destruct v. Qed.

Section OdometerFacts.
Variable float_lt : string -> string -> bool.

Let extract := _extract_odometer_and_trip_values float_lt.

(** The mapping built for a text that is not empty. *)
Lemma extract_shape c s :
  let text := String c s in
  let clean := reading_text text in
  extract text =
    [("OdometerReading", tidy (odo_found float_lt clean));
     ("Unit", unit_of clean)]
    ++ (if nonempty (tidy (trip_found clean))
        then [("TripReading", tidy (trip_found clean))]
        else []).
Proof.
  intros text clean. subst extract.
  unfold _extract_odometer_and_trip_values.
  change (nonempty text) with true. cbv iota zeta.
  fold clean. rewrite !tidy_guard.
  destruct (nonempty (tidy (trip_found clean))); reflexivity.
Qed.

Lemma unit_of_cases clean : unit_of clean = "km" \/ unit_of clean = "miles".
Proof. unfold unit_of. destruct (Re.search _ _); auto. Qed.

Lemma trip_found_accepted clean :
  trip_found clean <> EmptyString ->
  exists m, trip_match clean = Some m
            /\ is_menu_label clean m = false
            /\ trip_found clean = Re.group1 clean m.
Proof.
  unfold trip_found. destruct (trip_match clean) as [m|]; [|congruence].
  destruct (is_menu_label clean m) eqn:E; [congruence|].
  intros _. exists m. auto.
Qed.

End OdometerFacts.

(** A trailing character of the stripped class is dropped before anything
    else is looked at. *)
Lemma rstrip_by_snoc (p : ascii -> bool) (c : ascii) (v : string) :
  p c = true ->
  PyStr.rstrip_by p (v ++ String c "")%string = PyStr.rstrip_by p v.
Proof.
  intros Hc. induction v as [|a v IH]; simpl.
  - now rewrite Hc.
  - now rewrite IH.
Qed.

(** A final zero never reaches the displayed value, with or without a
    decimal point before it. *)
Lemma tidy_final_zero (v : string) : tidy (v ++ "0")%string = tidy v.
Proof.
  unfold tidy, PyStr.rstrip.
  now rewrite (rstrip_by_snoc (PyStr.in_chars "0") "0"%char v).
Qed.

(** By construction the mapping holds [OdometerReading] for every text that
    is not empty, also when no reading was found: the key is then bound to
    the empty string. *)
Lemma odometer_key_without_reading :
  ~ (forall (float_lt : string -> string -> bool) (text : string),
        dict_has "OdometerReading"
          (_extract_odometer_and_trip_values float_lt text) = true ->
        odo_found float_lt (reading_text text) <> "").
Proof.
  intros H. apply (H decimal_lt "abc"); reflexivity.
Qed.

(** The menu label of the specification's example: no trip value is
    matched, and the last mileage is the odometer. *)
Lemma extract_menu_label_example :
  _extract_odometer_and_trip_values decimal_lt "Trip Computer A/B 1234.5 mi 68321 mi"
  = [("OdometerReading", "68321"); ("Unit", "miles")].
Proof. reflexivity. Qed.

(** A reading with decimals is trimmed as the specification's examples
    show. *)
Lemma extract_decimal_example :
  _extract_odometer_and_trip_values decimal_lt "TM 2471.60 mi, 68263.0 mi"
  = [("OdometerReading", "68263"); ("Unit", "miles"); ("TripReading", "2471.6")].
Proof. reflexivity. Qed.

(** C5, where the code departs from it.  The trimming is
    [rstrip("0").rstrip(".")] on the matched numeral, whether or not the
    numeral has a decimal point.  A whole reading therefore loses the zeros
    that end it: "1200 km" is reported as "12", although "1200.0 km" is
    reported as "1200"; "68000 mi" is reported as "68"; and "0 km" is
    reported as the empty string.  In general, for an ASCII text, a reading
    that ends in a zero is reported exactly as the reading without that
    zero, so that 1200, 120 and 12 cannot be told apart in the result. *)
Theorem whole_reading_loses_zeros :
  forall (float_lt : string -> string -> bool),
    let extract := _extract_odometer_and_trip_values float_lt in
    extract "1200 km" = [("OdometerReading", "12"); ("Unit", "km")]
    /\ extract "1200.0 km" = [("OdometerReading", "1200"); ("Unit", "km")]
    /\ extract "68000 mi" = [("OdometerReading", "68"); ("Unit", "miles")]
    /\ extract "0 km" = [("OdometerReading", ""); ("Unit", "km")]
    /\ forall (c : ascii) (s v : string),
        is_ascii (String c s) = true ->
        odo_found float_lt (reading_text (String c s)) = (v ++ "0")%string ->
        dict_get "OdometerReading" (extract (String c s)) = Some (tidy v).
Proof.
  intros float_lt extract. subst extract.
  split; [reflexivity|]. split; [reflexivity|].
  split; [reflexivity|]. split; [reflexivity|].
  intros c s v _ Hv.
  pose proof (extract_shape float_lt c s) as Hshape. cbv zeta in Hshape.
  rewrite Hshape, Hv, tidy_final_zero. reflexivity.
Qed.

Lemma whole_reading_loses_zeros_witness :
  is_ascii "Odometer 1200 km" = true
  /\ odo_found decimal_lt (reading_text "Odometer 1200 km") = "1200"
  /\ dict_get "OdometerReading"
       (_extract_odometer_and_trip_values decimal_lt "Odometer 1200 km")
     = Some "12".
Proof.
  split; [reflexivity|]. split; [reflexivity|].
  exact (proj2 (proj2 (proj2 (proj2 (whole_reading_loses_zeros decimal_lt))))
           "O"%char "dometer 1200 km" "120" eq_refl eq_refl).
Defined.

(** ** Programs *)

Lemma run_bind {A B : Type} (w : world) (p : prog A) (f : A -> prog B) :
  run w (bind p f) = run w (f (run w p)).
Proof.
  induction p as [a|data k IH|req k IH|k IH]; simpl; auto.
Qed.

Lemma run_ebind {A B : Type} (w : world) (p : prog (result A))
  (f : A -> prog (result B)) :
  run w (ebind p f) =
    match run w p with
    | Ok a => run w (f a)
    | Raise e => Raise e
    end.
Proof.
  unfold ebind. rewrite run_bind. now destruct (run w p).
Qed.

(** ** The structuring engine *)

Section MapperFacts.
Variable float_lt : string -> string -> bool.
Variable json_loads : string -> result json.
Variable str_exn : pyexn -> string.

Let readings_of (text : string) := _extract_odometer_and_trip_values float_lt text.

(** The merge on a dictionary never fails and returns a dictionary. *)
Lemma merge_readings_object doc_type text d :
  exists d',
    merge_readings float_lt doc_type text (JObj d) = Ok (JObj d')
    /\ (forall k, reading_key k = false -> dict_get k d' = dict_get k d)
    /\ (mentions_odometer doc_type text = false -> d' = d)
    /\ (mentions_odometer doc_type text = true ->
        (forall odo,
            reading "OdometerReading" (readings_of text) = Some odo ->
            dict_get "OdometerReading" d' = Some (JStr odo)
            /\ dict_get "Unit" d'
               = Some (JStr (get_default "Unit" "miles" (readings_of text))))
        /\ (reading "OdometerReading" (readings_of text) = None ->
            dict_get "OdometerReading" d' = dict_get "OdometerReading" d
            /\ dict_get "Unit" d' = dict_get "Unit" d)
        /\ (forall trip,
              reading "TripReading" (readings_of text) = Some trip ->
              dict_get "TripReading" d' = Some (JStr trip))
        /\ (reading "TripReading" (readings_of text) = None ->
            dict_get "TripReading" d' = dict_get "TripReading" d)).
Proof.
  unfold merge_readings. subst readings_of. cbv beta.
  destruct (mentions_odometer doc_type text).
  2:{ exists d. repeat split; auto; discriminate. }
  cbv zeta.
  set (readings := _extract_odometer_and_trip_values float_lt text).
  unfold get_default.
  set (unit := match dict_get "Unit" readings with Some u => u | None => "miles" end).
  destruct (reading "OdometerReading" readings) as [odo|];
    destruct (reading "TripReading" readings) as [trip|]; simpl;
    eexists; (split; [reflexivity|]);
    (split; [intros k Hk; unfold reading_key in Hk;
             apply orb_false_iff in Hk as [Hk Ht];
             apply orb_false_iff in Hk as [Ho Hu];
             apply String.eqb_neq in Ho, Hu, Ht;
             repeat (rewrite dict_get_set_other by congruence); reflexivity|]);
    (split; [discriminate|]); intros _;
    repeat split; try discriminate; intros;
    repeat match goal with
      | H : Some _ = Some _ |- _ => injection H as <-
      end;
    repeat first
      [ rewrite dict_get_set_same
      | rewrite dict_get_set_other by discriminate ];
    reflexivity.
Qed.

Lemma dict_has_set_same {V : Type} k (v : V) d : dict_has k (dict_set k v d) = true.
Proof. unfold dict_has. now rewrite dict_get_set_same. Qed.

(** The [try] block on an answer that parses to an object. *)
Lemma structured_object text doc_type confidence content d :
  _safe_parse_json json_loads (PyStr.strip content) = Ok (JObj d) ->
  structured float_lt json_loads text doc_type confidence (Ok content)
  = merge_readings float_lt doc_type text (JObj (restored doc_type confidence d)).
Proof.
  intros Hparse. unfold structured. cbn [rbind]. cbv zeta.
  rewrite Hparse. cbn [rbind].
  unfold restored, ensure, get_default. cbn [py_in rbind].
  destruct (dict_has "DocumentType" d) eqn:Ht; cbn [py_setitem rbind py_in];
    match goal with
    | |- context [dict_has "ConfidenceScore" ?d1] =>
        destruct (dict_has "ConfidenceScore" d1) eqn:Hc
    end; cbn [py_setitem rbind py_get]; rewrite clean_object;
    cbn [py_setitem rbind]; reflexivity.
Qed.

(** The [try] block on an answer that parses to anything else. *)
Lemma structured_not_object text doc_type confidence content v :
  _safe_parse_json json_loads (PyStr.strip content) = Ok v ->
  (forall d, v <> JObj d) ->
  exists e, structured float_lt json_loads text doc_type confidence (Ok content)
            = Raise e.
Proof.
  intros Hparse Hv. unfold structured. cbn [rbind]. cbv zeta.
  rewrite Hparse. cbn [rbind]. unfold ensure.
  destruct v as [| | | | s|l|d]; cbn [py_in rbind]; eauto.
  - destruct (PyStr.contains "DocumentType" s); cbn [py_setitem rbind py_in]; eauto.
    destruct (PyStr.contains "ConfidenceScore" s);
      cbn [py_setitem rbind py_get]; eauto.
  - destruct (existsb (is_str "DocumentType") l); cbn [py_setitem rbind py_in]; eauto.
    destruct (existsb (is_str "ConfidenceScore") l);
      cbn [py_setitem rbind py_get]; eauto.
  - now destruct (Hv d).
Qed.

(** Whatever the [try] block returns is an object. *)
Lemma structured_returns_object text doc_type confidence response r :
  structured float_lt json_loads text doc_type confidence response = Ok r ->
  exists d, r = JObj d.
Proof.
  destruct response as [content|e]; [|discriminate].
  destruct (_safe_parse_json json_loads (PyStr.strip content)) as [v|e] eqn:Hp.
  - destruct v as [| | | | | |d];
      try (destruct (structured_not_object text doc_type confidence content _ Hp)
            as [e He]; [discriminate|]; rewrite He; discriminate).
    rewrite (structured_object _ _ _ _ _ Hp).
    destruct (merge_readings_object doc_type text (restored doc_type confidence d))
      as (d' & -> & _).
    intros [= <-]. eauto.
  - unfold structured. cbn [rbind]. cbv zeta. rewrite Hp. discriminate.
Qed.

(** A blank text is answered without a call to the model. *)
Lemma normalize_blank text doc_type confidence :
  blank text = true ->
  normalize_text float_lt json_loads str_exn text doc_type confidence
  = Ret no_text_error.
Proof. unfold normalize_text. now intros ->. Qed.

Lemma run_normalize w text doc_type confidence :
  blank text = false ->
  run w (normalize_text float_lt json_loads str_exn text doc_type confidence) =
    match structured float_lt json_loads text doc_type confidence
            (model w (Structure doc_type text confidence)) with
    | Ok result_json => result_json
    | Raise e => normalization_failed str_exn e
    end.
Proof.
  unfold normalize_text. intros ->. simpl.
  now destruct (structured _ _ _ _ _ _).
Qed.

(** [normalize_text] returns a mapping in every world: no exception
    reaches the caller. *)
Lemma normalize_returns_mapping w text doc_type confidence :
  exists d,
    run w (normalize_text float_lt json_loads str_exn text doc_type confidence)
    = JObj d.
Proof.
  destruct (blank text) eqn:Hb.
  - rewrite normalize_blank by exact Hb. simpl. unfold no_text_error. eauto.
  - rewrite run_normalize by exact Hb.
    destruct (structured _ _ _ _ _ _) as [r|e] eqn:Hs.
    + eapply structured_returns_object; eauto.
    + unfold normalization_failed. eauto.
Qed.

(** The second parse is made on the text after the last fence; when both
    parses fail the error mapping is produced. *)
Lemma safe_parse_retry text :
  json_loads text = Raise JSONDecodeError ->
  _safe_parse_json json_loads text =
    match json_loads (after_last_fence text) with
    | Ok v => Ok v
    | Raise _ => Ok invalid_json_error
    end.
Proof. unfold _safe_parse_json. now intros ->. Qed.

End MapperFacts.

Section RestoredFacts.
Variables (doc_type : string) (confidence : float) (d : dict json).

Lemma dict_has_false {V : Type} k (m : dict V) :
  dict_has k m = false -> dict_get k m = None.
Proof. unfold dict_has. now destruct (dict_get k m). Qed.

Lemma restored_document_type :
  dict_get "DocumentType" (restored doc_type confidence d)
  = Some (get_default "DocumentType" (JStr doc_type) d).
Proof.
  unfold restored. cbv zeta.
  rewrite dict_get_set_other by discriminate.
  rewrite dict_get_set_same. f_equal. unfold get_default.
  destruct (dict_has "DocumentType" d) eqn:Ht;
    match goal with
    | |- context [dict_has "ConfidenceScore" ?d1] =>
        destruct (dict_has "ConfidenceScore" d1)
    end;
    repeat first
      [ rewrite dict_get_set_other by discriminate
      | rewrite dict_get_set_same ];
    try reflexivity;
    now rewrite (dict_has_false _ _ Ht).
Qed.

Lemma restored_confidence_score :
  dict_get "ConfidenceScore" (restored doc_type confidence d)
  = Some (get_default "ConfidenceScore" (JFloat confidence) d).
Proof.
  unfold restored. cbv zeta.
  rewrite dict_get_set_same. f_equal. unfold get_default.
  destruct (dict_has "DocumentType" d) eqn:Ht;
    match goal with
    | |- context [dict_has "ConfidenceScore" ?d1] =>
        destruct (dict_has "ConfidenceScore" d1) eqn:Hc
    end;
    try apply dict_has_false in Hc;
    repeat first
      [ rewrite dict_get_set_same
      | rewrite dict_get_set_other in * by discriminate ];
    try reflexivity;
    now rewrite Hc.
Qed.

End RestoredFacts.

(** C7, as the code has it.  For a text that is not blank, when the call to
    the model succeeds and its answer parses to a JSON object (directly, on
    the retry, or as the invalid-JSON error object that replaces an answer
    that does not parse), the record returned holds [DocumentType] and
    [ConfidenceScore]: each is the value the model gave, restored after the
    stripping even when it is null or empty, and the argument of the call
    when the model gave none. *)
Theorem required_keys_restored :
  forall (float_lt : string -> string -> bool)
         (json_loads : string -> result json) (str_exn : pyexn -> string)
         (w : world) (text doc_type : string) (confidence : float)
         (content : string) (d : dict json),
    blank text = false ->
    model w (Structure doc_type text confidence) = Ok content ->
    _safe_parse_json json_loads (PyStr.strip content) = Ok (JObj d) ->
    exists r,
      run w (normalize_text float_lt json_loads str_exn text doc_type confidence)
      = JObj r
      /\ dict_get "DocumentType" r
         = Some (get_default "DocumentType" (JStr doc_type) d)
      /\ dict_get "ConfidenceScore" r
         = Some (get_default "ConfidenceScore" (JFloat confidence) d).
Proof.
  intros float_lt json_loads str_exn w text doc_type confidence content d
    Hb Hm Hp.
  rewrite run_normalize by exact Hb. rewrite Hm.
  rewrite (structured_object _ _ _ _ _ _ _ Hp).
  destruct (merge_readings_object float_lt doc_type text
              (restored doc_type confidence d)) as (r & -> & Hframe & _).
  exists r. split; [reflexivity|].
  rewrite !Hframe by reflexivity.
  split; [apply restored_document_type | apply restored_confidence_score].
Qed.

Lemma required_keys_restored_witness :
  exists r,
    run (sample_world "" 0.5 (Ok null_keys_text))
      (normalize_text decimal_lt loads_sample exn_text "Invoice 42" "Generic" 0.5)
    = JObj r
    /\ dict_get "DocumentType" r = Some JNull
    /\ dict_get "ConfidenceScore" r = Some (JArr []).
Proof.
  apply (required_keys_restored decimal_lt loads_sample exn_text
           (sample_world "" 0.5 (Ok null_keys_text)) "Invoice 42" "Generic" 0.5
           null_keys_text
           [("DocumentType", JNull); ("ConfidenceScore", JArr [])]);
    reflexivity.
Defined.

(** C7 as stated fails: the call succeeds with the answer [5], which
    parses to a number, and the record returned is the error record of the
    [except] branch, without the two keys. *)
Lemma number_answer_lacks_required_keys :
  ~ (forall (w : world) (text doc_type : string) (confidence : float)
            (content : string),
        blank text = false ->
        model w (Structure doc_type text confidence) = Ok content ->
        exists r,
          run w (normalize_text decimal_lt loads_sample exn_text
                   text doc_type confidence) = JObj r
          /\ dict_has "DocumentType" r = true
          /\ dict_has "ConfidenceScore" r = true).
Proof.
  intros H.
  destruct (H (sample_world "" 0.5 (Ok "5")) "Invoice 42" "Generic" 0.5%float "5"
              eq_refl eq_refl) as (r & Hr & Ht & _).
  vm_compute in Hr. injection Hr as <-. discriminate Ht.
Qed.

(** A record of one of the two failure shapes holds none of the reading
    keys. *)
Lemma no_reading_in_error (k : string) (fields : dict json) :
  reading_key k = true ->
  forallb (fun kv => negb (reading_key (fst kv))) fields = true ->
  dict_get k fields = None.
Proof.
  intros Hk. induction fields as [|[k' v] fields IH]; simpl.
  - reflexivity.
  - intros H. apply andb_prop in H as [Hk' H].
    destruct (String.eqb_spec k k') as [<-|_].
    + now rewrite Hk in Hk'.
    + now apply IH.
Qed.

(** C8, as the code has it.  The merge is reached for a text that is not
    blank, when the call to the model succeeds and its answer parses to a
    JSON object.  Let [before] then be the record once the required keys are
    restored.  The record returned differs from it on the keys
    [OdometerReading], [Unit] and [TripReading] at most, and not at all
    unless the type or the text mentions "odometer".  When one of them does:
    a reading that is not empty is written under [OdometerReading] together
    with the unit under [Unit]; without such a reading both keys are left as
    they were, whatever unit was detected; a trip value is written under
    [TripReading] when there is one, and the key is left as it was
    otherwise.  In every other case (a blank text, a call that raises, an
    answer that does not parse to an object) the merge is not reached,
    whatever the type and the text mention: the record returned is an error
    record that holds none of the three keys. *)
Theorem readings_merged :
  forall (float_lt : string -> string -> bool)
         (json_loads : string -> result json) (str_exn : pyexn -> string)
         (w : world) (text doc_type : string) (confidence : float),
    (forall (content : string) (d : dict json),
        blank text = false ->
        model w (Structure doc_type text confidence) = Ok content ->
        _safe_parse_json json_loads (PyStr.strip content) = Ok (JObj d) ->
        let before := restored doc_type confidence d in
        let readings := _extract_odometer_and_trip_values float_lt text in
        exists after,
          run w (normalize_text float_lt json_loads str_exn text doc_type confidence)
          = JObj after
          /\ (forall k, reading_key k = false -> dict_get k after = dict_get k before)
          /\ (mentions_odometer doc_type text = false -> after = before)
          /\ (mentions_odometer doc_type text = true ->
              (forall odo,
                  reading "OdometerReading" readings = Some odo ->
                  dict_get "OdometerReading" after = Some (JStr odo)
                  /\ dict_get "Unit" after
                     = Some (JStr (get_default "Unit" "miles" readings)))
              /\ (reading "OdometerReading" readings = None ->
                  dict_get "OdometerReading" after = dict_get "OdometerReading" before
                  /\ dict_get "Unit" after = dict_get "Unit" before)
              /\ (forall trip,
                    reading "TripReading" readings = Some trip ->
                    dict_get "TripReading" after = Some (JStr trip))
              /\ (reading "TripReading" readings = None ->
                  dict_get "TripReading" after = dict_get "TripReading" before)))
    /\ (blank text = true
        \/ (exists e, model w (Structure doc_type text confidence) = Raise e)
        \/ (exists content,
              model w (Structure doc_type text confidence) = Ok content
              /\ forall d,
                  _safe_parse_json json_loads (PyStr.strip content) <> Ok (JObj d)) ->
        exists failure,
          run w (normalize_text float_lt json_loads str_exn text doc_type confidence)
          = JObj failure
          /\ (exists why, dict_get "error" failure = Some (JStr why))
          /\ forall k, reading_key k = true -> dict_get k failure = None).
Proof.
  intros float_lt json_loads str_exn w text doc_type confidence. split.
  - intros content d Hb Hm Hp. cbv zeta.
    rewrite run_normalize by exact Hb. rewrite Hm.
    rewrite (structured_object _ _ _ _ _ _ _ Hp).
    destruct (merge_readings_object float_lt doc_type text
                (restored doc_type confidence d)) as (after & -> & Hrest).
    exists after. split; [reflexivity | exact Hrest].
  - intros Hcase.
    assert (Hfail : forall e,
               exists failure,
                 normalization_failed str_exn e = JObj failure
                 /\ (exists why, dict_get "error" failure = Some (JStr why))
                 /\ forall k, reading_key k = true -> dict_get k failure = None).
    { intros e. eexists. split; [reflexivity|]. split; [now eexists|].
      intros k Hk. now apply no_reading_in_error. }
    destruct (blank text) eqn:Hb.
    + rewrite normalize_blank by exact Hb.
      eexists. split; [reflexivity|]. split; [now eexists|].
      intros k Hk. now apply no_reading_in_error.
    + rewrite run_normalize by exact Hb.
      destruct Hcase as [Hcase | [[e He] | (content & Hm & Hp)]];
        [discriminate Hcase | rewrite He; apply Hfail |].
      rewrite Hm.
      destruct (_safe_parse_json json_loads (PyStr.strip content))
        as [v|e] eqn:Hv.
      * destruct (structured_not_object float_lt json_loads
                    text doc_type confidence content v Hv) as [e ->].
        { intros d ->. now apply (Hp d). }
        apply Hfail.
      * unfold structured. cbn [rbind]. cbv zeta. rewrite Hv. cbn [rbind].
        apply Hfail.
Qed.

Lemma readings_merged_witness :
  (exists after,
      run (sample_world "" 0.5 (Ok "{}"))
        (normalize_text decimal_lt loads_sample exn_text
           "Odometer TM 2471.60 mi, 68263.0 mi" "Odometer" 0.5)
      = JObj after
      /\ dict_get "OdometerReading" after = Some (JStr "68263")
      /\ dict_get "Unit" after = Some (JStr "miles")
      /\ dict_get "TripReading" after = Some (JStr "2471.6")
      /\ dict_get "DocumentType" after = Some (JStr "Odometer"))
  /\ (exists failure,
        run (sample_world "" 0.5 (Ok "5"))
          (normalize_text decimal_lt loads_sample exn_text
             "Odometer 68263 mi" "Odometer" 0.5)
        = JObj failure
        /\ dict_get "OdometerReading" failure = None).
Proof.
  split.
  - destruct (proj1 (readings_merged decimal_lt loads_sample exn_text
                       (sample_world "" 0.5 (Ok "{}"))
                       "Odometer TM 2471.60 mi, 68263.0 mi" "Odometer" 0.5)
                "{}" [] eq_refl eq_refl eq_refl)
      as (after & Hrun & Hframe & _ & Hmerge).
    destruct (Hmerge eq_refl) as (Hodo & _ & Htrip & _).
    exists after. split; [exact Hrun|].
    split; [exact (proj1 (Hodo "68263" eq_refl))|].
    split; [exact (proj2 (Hodo "68263" eq_refl))|].
    split; [exact (Htrip "2471.6" eq_refl)|].
    rewrite (Hframe "DocumentType" eq_refl). reflexivity.
  - destruct (proj2 (readings_merged decimal_lt loads_sample exn_text
                       (sample_world "" 0.5 (Ok "5"))
                       "Odometer 68263 mi" "Odometer" 0.5))
      as (failure & Hrun & _ & Hnone).
    { right. right. exists "5". split; [reflexivity|].
      intros d. discriminate. }
    exists failure. split; [exact Hrun|]. exact (Hnone "OdometerReading" eq_refl).
Defined.

(** C8 as stated fails: the text "odometer km" yields the unit "km" and no
    reading, and the unit is not written to the record. *)
Lemma unit_without_reading_not_merged :
  ~ (forall (doc_type text : string) (d d' : dict json) (k v : string),
        mentions_odometer doc_type text = true ->
        merge_readings decimal_lt doc_type text (JObj d) = Ok (JObj d') ->
        reading_key k = true ->
        reading k (_extract_odometer_and_trip_values decimal_lt text) = Some v ->
        dict_get k d' = Some (JStr v)).
Proof.
  intros H.
  specialize (H "Generic" "odometer km" [] [] "Unit" "km"
                eq_refl eq_refl eq_refl eq_refl).
  discriminate H.
Qed.

(** C2 at an answer wrapped in a pair of fences.  The direct parse fails;
    the text kept for the second parse is what follows the last fence, here
    the empty string, not the object between the two fences; so the second
    parse fails as well and the record returned carries the invalid-JSON
    error. *)
Theorem fenced_answer_not_salvaged :
  forall (float_lt : string -> string -> bool)
         (json_loads : string -> result json) (str_exn : pyexn -> string)
         (w : world) (text doc_type : string) (confidence : float),
    blank text = false ->
    mentions_odometer doc_type text = false ->
    model w (Structure doc_type text confidence) = Ok "```{}```" ->
    json_loads "```{}```" = Raise JSONDecodeError ->
    json_loads "" = Raise JSONDecodeError ->
    after_last_fence "```{}```" = ""
    /\ _safe_parse_json json_loads "```{}```" = Ok invalid_json_error
    /\ run w (normalize_text float_lt json_loads str_exn text doc_type confidence)
       = JObj [("error", JStr "Invalid JSON returned from model.");
               ("DocumentType", JStr doc_type);
               ("ConfidenceScore", JFloat confidence)].
Proof.
  intros float_lt json_loads str_exn w text doc_type confidence Hb Ho Hm H1 H2.
  assert (Hp : _safe_parse_json json_loads (PyStr.strip "```{}```")
               = Ok invalid_json_error).
  { change (PyStr.strip "```{}```") with "```{}```".
    rewrite safe_parse_retry by exact H1.
    change (after_last_fence "```{}```") with "". now rewrite H2. }
  split; [reflexivity|]. split; [exact Hp|].
  rewrite run_normalize by exact Hb. rewrite Hm.
  rewrite (structured_object _ _ _ _ _ _ _ Hp).
  unfold merge_readings. rewrite Ho. reflexivity.
Qed.

Lemma fenced_answer_not_salvaged_witness :
  run (sample_world "" 0.5 (Ok "```{}```"))
    (normalize_text decimal_lt loads_sample exn_text "Invoice 42" "Generic" 0.5)
  = JObj [("error", JStr "Invalid JSON returned from model.");
          ("DocumentType", JStr "Generic");
          ("ConfidenceScore", JFloat 0.5)].
Proof.
  apply (fenced_answer_not_salvaged decimal_lt loads_sample exn_text
           (sample_world "" 0.5 (Ok "```{}```")) "Invoice 42" "Generic" 0.5);
    reflexivity.
Defined.

(** ** The license refiner *)

(** C9, as the code has it.  Let the record hold no [DocumentType] or a
    string under it, and let [key] be that string (the empty one when the
    key is absent) lower-cased and freed of blanks.  When [key] does not
    contain "driverlicense" the refiner returns the record as it is, without
    a call to the model.  When it does, the model is asked once; if the call
    raises, or the parse of its answer raises, the record is returned as it
    was; otherwise the parsed answer is returned.  No exception reaches the
    caller in any of these cases. *)
Theorem refine_license_contract :
  forall (json_loads : string -> result json) (w : world)
         (d : dict json) (raw_text s : string),
    get_default "DocumentType" (JStr "") d = JStr s ->
    let key := PyStr.replace " " "" (PyStr.lower s) in
    let record := JObj d in
    let request := Refine raw_text record in
    let refined := run w (refine_license_fields json_loads record raw_text) in
    (PyStr.contains "driverlicense" key = false ->
       refine_license_fields json_loads record raw_text = Ret (Ok record)
       /\ refined = Ok record)
    /\ (PyStr.contains "driverlicense" key = true ->
        model_calls w (refine_license_fields json_loads record raw_text) = [request]
        /\ (forall e, model w request = Raise e -> refined = Ok record)
        /\ (forall content e,
              model w request = Ok content ->
              (if PyStr.contains "```" (PyStr.strip content)
               then json_loads (after_last_fence (PyStr.strip content))
               else json_loads (PyStr.strip content)) = Raise e ->
              refined = Ok record)
        /\ (forall content answer,
              model w request = Ok content ->
              (if PyStr.contains "```" (PyStr.strip content)
               then json_loads (after_last_fence (PyStr.strip content))
               else json_loads (PyStr.strip content)) = Ok answer ->
              refined = Ok answer)).
Proof.
  intros json_loads w d raw_text s Hs key record request refined.
  assert (Hk : license_key record = Ok key).
  { unfold license_key, record. cbn [py_get rbind].
    unfold get_default in Hs. rewrite Hs. reflexivity. }
  subst refined. unfold refine_license_fields. rewrite Hk.
  split; intros Hc; rewrite Hc; cbn [negb].
  - split; reflexivity.
  - fold request. cbn [model_calls run].
    split; [now destruct (refined_of json_loads (model w request))|].
    split; [intros e ->; reflexivity|].
    split; intros content x ->; unfold refined_of; cbn [rbind]; cbv zeta;
      intros ->; reflexivity.
Qed.

Lemma refine_license_contract_witness :
  run (sample_world "" 0.5 (Ok "not json"))
    (refine_license_fields loads_sample
       (JObj [("DocumentType", JStr "Driver License - Front Side")]) "DL 123")
  = Ok (JObj [("DocumentType", JStr "Driver License - Front Side")]).
Proof.
  refine (proj1 (proj2 (proj2 (proj2
    (refine_license_contract loads_sample
       (sample_world "" 0.5 (Ok "not json"))
       [("DocumentType", JStr "Driver License - Front Side")] "DL 123"
       "Driver License - Front Side" eq_refl) eq_refl))) "not json" JSONDecodeError
    eq_refl eq_refl).
Defined.

(** C9 as stated fails: on a record whose [DocumentType] is null the
    refiner raises [AttributeError] instead of returning the record. *)
Lemma null_document_type_raises :
  ~ (forall (w : world) (d : dict json) (raw_text : string),
        ~ (exists key, license_key (JObj d) = Ok key
                       /\ PyStr.contains "driverlicense" key = true) ->
        run w (refine_license_fields loads_sample (JObj d) raw_text)
        = Ok (JObj d)).
Proof.
  intros H.
  specialize (H (sample_world "" 0.5 (Ok "{}")) [("DocumentType", JNull)] "DL 123").
  assert (Hn : ~ (exists key,
                     license_key (JObj [("DocumentType", JNull)]) = Ok key
                     /\ PyStr.contains "driverlicense" key = true)).
  { intros (key & Hk & _). discriminate Hk. }
  specialize (H Hn). discriminate H.
Qed.

(** ** The batch loop *)

Section BatchFacts.
Variable float_lt : string -> string -> bool.
Variable json_loads : string -> result json.
Variable str_exn : pyexn -> string.
Variable json_dumps : json -> string.

Let process := process_document float_lt json_loads str_exn json_dumps.

(** A document that is processed is filed under its stem. *)
Lemma process_document_names w all_filenames f json_name g :
  run w (process all_filenames f) = Ok (json_name, g) ->
  json_name = (stem (name f) ++ ".json")%string
  /\ g_doc_name g = name f
  /\ g_data g = data f.
Proof.
  subst process. unfold process_document. cbv zeta.
  rewrite run_ebind. cbn [run].
  destruct (ocr w (data f)) as [ocr_result|e]; [|discriminate].
  rewrite run_bind.
  set (normalized := run w (normalize_text _ _ _ _ _ _)).
  rewrite run_ebind. unfold lift at 1. cbn [run].
  destruct (license_key normalized) as [key|e]; [|discriminate].
  rewrite run_ebind.
  destruct (run w (if PyStr.contains "driverlicense" key then _ else _))
    as [normalized'|e]; [|discriminate].
  rewrite run_ebind. unfold lift at 1. cbn [run].
  destruct (py_setitem normalized' "RawData" _) as [n1|e]; [|discriminate].
  cbn [run]. rewrite run_ebind. unfold lift. cbn [run].
  destruct (py_setitem n1 "ProcessedDate" _) as [n2|e]; [|discriminate].
  intros [= <- <-]. auto.
Qed.

Lemma run_process_two w f1 f2 :
  run w (process_documents float_lt json_loads str_exn json_dumps [f1; f2]) =
    let all := [name f1; name f2] in
    record_outcome str_exn (name f2)
      (record_outcome str_exn (name f1) (Batch [] []) (run w (process all f1)))
      (run w (process all f2)).
Proof.
  unfold process_documents. cbn [map process_from].
  rewrite run_bind, run_bind. reflexivity.
Qed.

End BatchFacts.

(** C10.  A processed document is filed in [generated_jsons] under the stem
    of its name followed by ".json".  When two documents of a batch of two
    have the same stem and both are processed, each gets its row of the
    summary, and the collection holds one entry, that of the second document.
    The batch "doc.pdf", "doc.jpg" is such a batch. *)
Theorem same_stem_overwrites :
  (forall (float_lt : string -> string -> bool)
          (json_loads : string -> result json) (str_exn : pyexn -> string)
          (json_dumps : json -> string) (w : world) (f1 f2 : upload)
          (n1 n2 : string) (g1 g2 : generated),
      stem (name f1) = stem (name f2) ->
      run w (process_document float_lt json_loads str_exn json_dumps
               [name f1; name f2] f1) = Ok (n1, g1) ->
      run w (process_document float_lt json_loads str_exn json_dumps
               [name f1; name f2] f2) = Ok (n2, g2) ->
      let b := run w (process_documents float_lt json_loads str_exn json_dumps
                        [f1; f2]) in
      n1 = (stem (name f1) ++ ".json")%string
      /\ n2 = n1
      /\ results_summary b
         = [Succeeded (name f1) (g_detected_type g1) n1;
            Succeeded (name f2) (g_detected_type g2) n2]
      /\ generated_jsons b = [(n1, g2)]
      /\ g_doc_name g2 = name f2)
  /\ (exists (g : generated),
        let b := run (sample_world "hello" 0.5 (Ok "{}"))
                   (process_documents decimal_lt loads_sample exn_text dumps_sample
                      [Upload "doc.pdf" "%PDF"; Upload "doc.jpg" "JFIF"]) in
        results_summary b
        = [Succeeded "doc.pdf" "Generic" "doc.json";
           Succeeded "doc.jpg" "Generic" "doc.json"]
        /\ generated_jsons b = [("doc.json", g)]
        /\ g_doc_name g = "doc.jpg"
        /\ g_data g = "JFIF").
Proof.
  split.
  - intros float_lt json_loads str_exn json_dumps w f1 f2 n1 n2 g1 g2 Hstem H1 H2 b.
    destruct (process_document_names _ _ _ _ _ _ _ _ _ H1) as (E1 & _ & _).
    destruct (process_document_names _ _ _ _ _ _ _ _ _ H2) as (E2 & D2 & _).
    assert (E : n2 = n1) by (rewrite E1, E2, Hstem; reflexivity).
    subst b. rewrite run_process_two. cbv zeta. rewrite H1, H2.
    cbn [record_outcome results_summary generated_jsons app].
    repeat split; auto.
    rewrite E. cbn [dict_set]. now rewrite String.eqb_refl.
  - eexists. vm_compute. repeat split.
Qed.

Lemma same_stem_overwrites_witness :
  let files := [Upload "doc.pdf" "%PDF"; Upload "doc.jpg" "JFIF"] in
  let b := run (sample_world "hello" 0.5 (Ok "{}"))
             (process_documents decimal_lt loads_sample exn_text dumps_sample files) in
  List.length (results_summary b) = 2 /\ keys (generated_jsons b) = ["doc.json"].
Proof.
  destruct (run (sample_world "hello" 0.5 (Ok "{}"))
              (process_document decimal_lt loads_sample exn_text dumps_sample
                 ["doc.pdf"; "doc.jpg"] (Upload "doc.pdf" "%PDF")))
    as [[n1 g1]|e] eqn:H1; [|discriminate H1].
  destruct (run (sample_world "hello" 0.5 (Ok "{}"))
              (process_document decimal_lt loads_sample exn_text dumps_sample
                 ["doc.pdf"; "doc.jpg"] (Upload "doc.jpg" "JFIF")))
    as [[n2 g2]|e] eqn:H2; [|discriminate H2].
  destruct (proj1 same_stem_overwrites decimal_lt loads_sample exn_text dumps_sample
              (sample_world "hello" 0.5 (Ok "{}"))
              (Upload "doc.pdf" "%PDF") (Upload "doc.jpg" "JFIF")
              n1 n2 g1 g2 eq_refl H1 H2) as (E1 & _ & Hs & Hg & _).
  cbv zeta. split.
  - rewrite Hs. reflexivity.
  - rewrite Hg, E1. reflexivity.
Defined.

(** * Further properties of the code *)

(** ** Lower-casing *)

Lemma lower_char_idempotent c :
  PyStr.lower_char (PyStr.lower_char c) = PyStr.lower_char c.
Proof. destruct c as [[] [] [] [] [] [] [] []]; reflexivity. Qed.

Lemma lower_idempotent s : PyStr.lower (PyStr.lower s) = PyStr.lower s.
Proof.
  induction s as [|c s IH]; simpl; auto.
  now rewrite lower_char_idempotent, IH.
Qed.

Lemma nonempty_lower s : nonempty (PyStr.lower s) = nonempty s.
Proof. now destruct s. Qed.

Lemma dl_count_lower fs : dl_count (map PyStr.lower fs) = dl_count fs.
Proof.
  unfold dl_count. induction fs as [|f fs IH]; [reflexivity|].
  cbn [map filter]. rewrite lower_idempotent.
  destruct (PyStr.any_in Keywords.license_sibling (PyStr.lower f));
    cbn [List.length]; [f_equal|]; exact IH.
Qed.

(** ** Document-type detection *)

(** X1. The classifier is blind to the case of its inputs: lower-casing the
    file name, the text and the names of the batch changes no label. *)
Theorem detect_ignores_case :
  forall (filename text : string) (all_files : option (list string)),
    detect_document_type (PyStr.lower filename) (PyStr.lower text)
      (option_map (map PyStr.lower) all_files)
    = detect_document_type filename text all_files.
Proof.
  intros filename text all_files.
  unfold detect_document_type, normalized_name. cbv zeta.
  rewrite !lower_idempotent.
  assert (E : forall name text_lower,
             license_by_name name text_lower (option_map (map PyStr.lower) all_files)
             = license_by_name name text_lower all_files).
  { intros name text_lower. unfold license_by_name.
    destruct all_files as [[|f fs]|]; simpl option_map; cbv iota; auto.
    change (PyStr.lower f :: map PyStr.lower fs) with (map PyStr.lower (f :: fs)).
    now rewrite dl_count_lower. }
  now rewrite E.
Qed.

(** X2. Every label returned is one of the eleven labels of the
    classifier. *)
Theorem detect_label_known :
  forall (filename text : string) (all_files : option (list string)),
    In (detect_document_type filename text all_files) labels.
Proof.
  intros filename text all_files.
  unfold detect_document_type, license_by_name, license_side, type_by_text.
  cbv zeta.
  repeat match goal with
    | |- In (if ?b then _ else _) _ => destruct b
    | |- In (match ?x with Some _ => _ | None => _ end) _ => destruct x
    | |- In (match ?x with [] => _ | _ :: _ => _ end) _ => destruct x
    end;
    unfold labels; simpl; tauto.
Qed.

(** X3. The label is "Generic" exactly when no keyword list of the file-name
    stage occurs in the normalized name and no rule of the text stage
    applies to the lower-cased text. *)
Theorem detect_generic_iff :
  forall (filename text : string) (all_files : option (list string)),
    detect_document_type filename text all_files = "Generic"
    <-> name_keyword (normalized_name filename) = false
        /\ text_keyword (PyStr.lower text) = false.
Proof.
  intros filename text all_files.
  unfold detect_document_type, license_by_name, license_side, type_by_text,
    name_keyword, text_keyword.
  cbv zeta.
  repeat match goal with
    | |- (if ?b then _ else _) = _ <-> _ => destruct b
    | |- (match ?x with Some _ => _ | None => _ end) = _ <-> _ => destruct x
    | |- (match ?x with [] => _ | _ :: _ => _ end) = _ <-> _ => destruct x
    end;
    simpl; (split; [try discriminate | try (intros [? ?]; discriminate)]); auto.
Qed.

(** X4. When the name alone decides (a keyword list tried before the license
    list matches, or the license list does not match and a later list
    does), the label depends neither on the text nor on the other files. *)
Theorem detect_name_decides :
  forall (filename text1 text2 : string) (files1 files2 : option (list string)),
    name_decides (normalized_name filename) = true ->
    detect_document_type filename text1 files1
    = detect_document_type filename text2 files2.
Proof.
  intros filename text1 text2 files1 files2.
  unfold name_decides, detect_document_type. cbv zeta.
  destruct (PyStr.any_in Keywords.residence_name _); auto.
  destruct (PyStr.any_in Keywords.income_name _); auto.
  destruct (PyStr.any_in Keywords.title_name _); auto.
  destruct (PyStr.any_in Keywords.insurance_name _); auto.
  destruct (PyStr.any_in Keywords.license_name _); [discriminate|].
  destruct (PyStr.any_in Keywords.registration_name _); auto.
  destruct (PyStr.any_in Keywords.odometer_name _); auto.
  destruct (PyStr.any_in Keywords.reference_name _); auto.
  discriminate.
Qed.

Lemma detect_name_decides_witness :
  detect_document_type "Paystub_March.pdf" "certificate of title" None
  = detect_document_type "Paystub_March.pdf" "driver license"
      (Some ["dl.pdf"; "Paystub_March.pdf"]).
Proof.
  apply (detect_name_decides "Paystub_March.pdf"); reflexivity.
Defined.

(** X5. In the license branch a name that holds "front" is the front side,
    and a name that holds "back" and not "front" is the back side, whatever
    the text and the other files. *)
Theorem license_side_by_name :
  forall (filename text : string) (all_files : option (list string)),
    let name := normalized_name filename in
    reaches_license_branch name = true ->
    PyStr.any_in Keywords.license_name name = true ->
    (PyStr.contains "front" name = true ->
       detect_document_type filename text all_files = "DriverLicense - Front Side")
    /\ (PyStr.contains "front" name = false ->
        PyStr.contains "back" name = true ->
        detect_document_type filename text all_files = "DriverLicense - Back Side").
Proof.
  intros filename text all_files name Hr Hl.
  apply reaches_license_branch_spec in Hr as (H1 & H2 & H3 & H4).
  unfold detect_document_type. cbv zeta. fold name.
  rewrite H1, H2, H3, H4, Hl. unfold license_by_name.
  split.
  - now intros ->.
  - now intros -> ->.
Qed.

Lemma license_side_by_name_witness :
  detect_document_type "DL_Back_front-desk.jpg" "dmv barcode" None
  = "DriverLicense - Front Side"
  /\ detect_document_type "Driver Back.jpg" "date of birth" (Some ["Driver Back.jpg"])
     = "DriverLicense - Back Side".
Proof.
  split.
  - apply (proj1 (license_side_by_name "DL_Back_front-desk.jpg" "dmv barcode" None
                    eq_refl eq_refl)); reflexivity.
  - apply (proj2 (license_side_by_name "Driver Back.jpg" "date of birth"
                    (Some ["Driver Back.jpg"]) eq_refl eq_refl)); reflexivity.
Defined.

(** X6. The income and residence rule of the text stage.  When no keyword
    list matches the name, the text does not hold both "driver" and
    "license", and no title keyword occurs in it: an income keyword together
    with a residence keyword of the income rule gives "ProofOfResidence", an
    income keyword alone gives "ProofOfIncome", and without an income
    keyword a keyword of the residence list gives "ProofOfResidence". *)
Theorem text_income_residence_rule :
  forall (filename text : string) (all_files : option (list string)),
    let text_lower := PyStr.lower text in
    let label := detect_document_type filename text all_files in
    name_keyword (normalized_name filename) = false ->
    PyStr.contains "driver" text_lower && PyStr.contains "license" text_lower = false ->
    PyStr.any_in Keywords.title_text text_lower = false ->
    (PyStr.any_in Keywords.income_text text_lower = true ->
       (PyStr.any_in Keywords.income_residence_text text_lower = true ->
          label = "ProofOfResidence")
       /\ (PyStr.any_in Keywords.income_residence_text text_lower = false ->
           label = "ProofOfIncome"))
    /\ (PyStr.any_in Keywords.income_text text_lower = false ->
        PyStr.any_in Keywords.residence_text text_lower = true ->
        label = "ProofOfResidence").
Proof.
  intros filename text all_files text_lower label Hn Hd Ht. subst label.
  unfold name_keyword in Hn.
  repeat match type of Hn with
    | _ || _ = false => apply orb_false_iff in Hn as [Hn ?]
    end.
  unfold detect_document_type. cbv zeta.
  repeat match goal with
    | H : PyStr.any_in _ (normalized_name filename) = false |- _ => rewrite H; clear H
    end.
  unfold type_by_text. fold text_lower. rewrite Hd, Ht.
  split.
  - intros ->. split; now intros ->.
  - now intros -> ->.
Qed.

Lemma text_income_residence_rule_witness :
  detect_document_type "scan_001.pdf" "Employer: ACME. Lease agreement enclosed." None
  = "ProofOfResidence".
Proof.
  apply (proj1 (proj1 (text_income_residence_rule "scan_001.pdf"
                         "Employer: ACME. Lease agreement enclosed." None
                         eq_refl eq_refl eq_refl) eq_refl)).
  reflexivity.
Defined.

(** ** Blank texts, fences and the parse of the answer *)

Lemma rstrip_by_idempotent p s :
  PyStr.rstrip_by p (PyStr.rstrip_by p s) = PyStr.rstrip_by p s.
Proof.
  induction s as [|c s IH]; [reflexivity|].
  cbn [PyStr.rstrip_by].
  destruct (PyStr.rstrip_by p s) as [|d r] eqn:E.
  - destruct (p c) eqn:Hc; [reflexivity|].
    cbn [PyStr.rstrip_by]. now rewrite Hc.
  - cbn [PyStr.rstrip_by] in *. now rewrite IH.
Qed.

Lemma lstrip_by_head p s :
  PyStr.lstrip_by p s = EmptyString
  \/ exists c t, PyStr.lstrip_by p s = String c t /\ p c = false.
Proof.
  induction s as [|c s IH]; simpl; auto.
  destruct (p c) eqn:Hc; auto. right. eauto.
Qed.

Lemma rstrip_by_head p c t :
  p c = false -> exists r, PyStr.rstrip_by p (String c t) = String c r.
Proof.
  intros Hc. cbn [PyStr.rstrip_by].
  destruct (PyStr.rstrip_by p t); rewrite ?Hc; eauto.
Qed.

Lemma strip_idempotent s : PyStr.strip (PyStr.strip s) = PyStr.strip s.
Proof.
  unfold PyStr.strip.
  destruct (lstrip_by_head PyStr.is_space s) as [E|(c & t & E & Hc)]; rewrite E.
  - reflexivity.
  - destruct (rstrip_by_head PyStr.is_space c t Hc) as [r Hr].
    rewrite Hr. cbn [PyStr.lstrip_by]. rewrite Hc, <- Hr.
    apply rstrip_by_idempotent.
Qed.

Lemma rstrip_by_empty p s :
  PyStr.rstrip_by p s = EmptyString <-> forallb p (list_ascii_of_string s) = true.
Proof.
  induction s as [|c s IH]; simpl; [tauto|].
  destruct (PyStr.rstrip_by p s) as [|d r].
  - destruct (p c); simpl.
    + tauto.
    + split; discriminate.
  - split; [discriminate|].
    rewrite andb_true_iff. intros [_ H]. apply IH in H. discriminate.
Qed.

Lemma lstrip_by_all p s :
  forallb p (list_ascii_of_string (PyStr.lstrip_by p s)) = true
  <-> forallb p (list_ascii_of_string s) = true.
Proof.
  induction s as [|c s IH]; simpl; [tauto|].
  destruct (p c) eqn:Hc; simpl; rewrite ?Hc; simpl; tauto.
Qed.

(** A text is blank exactly when all its characters are white space. *)
Lemma blank_spec text :
  blank text = true <-> forallb PyStr.is_space (list_ascii_of_string text) = true.
Proof.
  unfold blank, PyStr.strip. rewrite <- lstrip_by_all, <- rstrip_by_empty.
  destruct text as [|c s]; [simpl; tauto|].
  cbn [nonempty negb orb].
  destruct (PyStr.rstrip_by _ _); simpl; split; congruence.
Qed.

Lemma split_from_no_sep sep s :
  PyStr.contains sep s = false ->
  forall cur, PyStr.split_from sep 0 cur s = [(cur ++ s)%string].
Proof.
  induction s as [|c s IH]; intros H cur.
  - simpl. f_equal. induction cur; simpl; congruence.
  - rewrite contains_cons in H. apply orb_false_iff in H as [Hp Hs].
    cbn [PyStr.split_from]. rewrite Hp, (IH Hs). f_equal.
    induction cur; simpl; congruence.
Qed.

(** Without a fence the text kept for the second parse is the text itself,
    stripped. *)
Lemma after_last_fence_no_fence text :
  PyStr.contains "```" text = false -> after_last_fence text = PyStr.strip text.
Proof.
  intros H. unfold after_last_fence, PyStr.split.
  now rewrite (split_from_no_sep _ _ H).
Qed.

Section ParseFacts.
Variable float_lt : string -> string -> bool.
Variable json_loads : string -> result json.
Variable str_exn : pyexn -> string.

(** X7. [normalize_text] asks the model at most once, and then with the
    type, the text and the confidence it was given.  It never asks for a
    text made only of the white space of ASCII (the empty text included),
    for which it returns the no-text error; and it asks exactly once for an
    ASCII text that holds any other character. *)
Theorem normalize_calls_model_once :
  forall (w : world) (text doc_type : string) (confidence : float),
    let calls :=
      model_calls w
        (normalize_text float_lt json_loads str_exn text doc_type confidence) in
    (calls = [] \/ calls = [Structure doc_type text confidence])
    /\ (forallb PyStr.is_space (list_ascii_of_string text) = true ->
        normalize_text float_lt json_loads str_exn text doc_type confidence
        = Ret no_text_error
        /\ calls = [])
    /\ (is_ascii text = true ->
        forallb PyStr.is_space (list_ascii_of_string text) = false ->
        calls = [Structure doc_type text confidence]).
Proof.
  intros w text doc_type confidence calls. subst calls.
  unfold normalize_text.
  split; [|split].
  - destruct (blank text); [now left|right].
    cbn [model_calls]. now destruct (structured _ _ _ _ _ _).
  - intros H. apply blank_spec in H. rewrite H. split; reflexivity.
  - intros _ H. destruct (blank text) eqn:Hb.
    + apply blank_spec in Hb. congruence.
    + cbn [model_calls].
      now destruct (structured _ _ _ _ _ _).
Qed.

(** X8. When the call to the model raises, the record returned is the
    failure record with the text of the exception. *)
Theorem normalize_call_failure :
  forall (w : world) (text doc_type : string) (confidence : float) (e : pyexn),
    blank text = false ->
    model w (Structure doc_type text confidence) = Raise e ->
    run w (normalize_text float_lt json_loads str_exn text doc_type confidence)
    = JObj [("error", JStr "Text normalization failed");
            ("message", JStr (str_exn e))].
Proof.
  intros w text doc_type confidence e Hb Hm.
  rewrite run_normalize by exact Hb. now rewrite Hm.
Qed.

(** X9. An answer without a fence that [json.loads] rejects is never
    salvaged: the second parse is made on the same text, and the record
    returned carries the invalid-JSON error next to the type and the
    confidence given to the call. *)
Theorem unfenced_answer_invalid :
  forall (w : world) (text doc_type : string) (confidence : float)
         (content : string),
    blank text = false ->
    model w (Structure doc_type text confidence) = Ok content ->
    PyStr.contains "```" (PyStr.strip content) = false ->
    json_loads (PyStr.strip content) = Raise JSONDecodeError ->
    _safe_parse_json json_loads (PyStr.strip content) = Ok invalid_json_error
    /\ exists r,
        run w (normalize_text float_lt json_loads str_exn text doc_type confidence)
        = JObj r
        /\ dict_get "error" r = Some (JStr "Invalid JSON returned from model.")
        /\ dict_get "DocumentType" r = Some (JStr doc_type)
        /\ dict_get "ConfidenceScore" r = Some (JFloat confidence).
Proof.
  intros w text doc_type confidence content Hb Hm Hf Hl.
  assert (Hp : _safe_parse_json json_loads (PyStr.strip content)
               = Ok invalid_json_error).
  { rewrite safe_parse_retry by exact Hl.
    rewrite (after_last_fence_no_fence _ Hf), strip_idempotent.
    now rewrite Hl. }
  split; [exact Hp|].
  rewrite run_normalize by exact Hb. rewrite Hm.
  rewrite (structured_object _ _ _ _ _ _ _ Hp).
  destruct (merge_readings_object float_lt doc_type text
              (restored doc_type confidence
                 [("error", JStr "Invalid JSON returned from model.")]))
    as (r & -> & Hframe & _).
  exists r. split; [reflexivity|].
  rewrite !Hframe by reflexivity. repeat split.
Qed.

End ParseFacts.

Lemma normalize_calls_model_once_witness :
  model_calls (sample_world "" 0.5 (Ok "{}"))
    (normalize_text decimal_lt loads_sample exn_text "Invoice 42" "Generic" 0.5)
  = [Structure "Generic" "Invoice 42" 0.5]
  /\ model_calls (sample_world "" 0.5 (Ok "{}"))
       (normalize_text decimal_lt loads_sample exn_text "  " "Generic" 0.5)
     = [].
Proof.
  split.
  - apply (proj2 (proj2 (normalize_calls_model_once decimal_lt loads_sample
                           exn_text (sample_world "" 0.5 (Ok "{}"))
                           "Invoice 42" "Generic" 0.5)));
      reflexivity.
  - apply (proj1 (proj2 (normalize_calls_model_once decimal_lt loads_sample
                           exn_text (sample_world "" 0.5 (Ok "{}"))
                           "  " "Generic" 0.5))).
    reflexivity.
Defined.

Lemma normalize_call_failure_witness :
  run (sample_world "" 0.5 (Raise (Failure "timeout")))
    (normalize_text decimal_lt loads_sample exn_text "Invoice 42" "Generic" 0.5)
  = JObj [("error", JStr "Text normalization failed"); ("message", JStr "timeout")].
Proof.
  apply (normalize_call_failure decimal_lt loads_sample exn_text
           (sample_world "" 0.5 (Raise (Failure "timeout")))
           "Invoice 42" "Generic" 0.5 (Failure "timeout")); reflexivity.
Defined.

Lemma unfenced_answer_invalid_witness :
  _safe_parse_json loads_sample (PyStr.strip " not json ") = Ok invalid_json_error.
Proof.
  apply (unfenced_answer_invalid decimal_lt loads_sample exn_text
           (sample_world "" 0.5 (Ok " not json ")) "Invoice 42" "Generic" 0.5
           " not json "); reflexivity.
Defined.

(** ** The shape of the record returned *)

Lemma dict_get_In {V : Type} k (v : V) d : dict_get k d = Some v -> In (k, v) d.
Proof.
  induction d as [|[k' v'] d IH]; simpl; [discriminate|].
  destruct (String.eqb_spec k k') as [<-|Hne].
  - intros [= ->]. auto.
  - auto.
Qed.

Lemma dict_set_pairs {V : Type} (P : string * V -> Prop) k v (d : dict V) :
  P (k, v) -> Forall P d -> Forall P (dict_set k v d).
Proof.
  intros Hv. induction 1 as [|[k' v'] d Hx Hd IH]; simpl.
  - auto.
  - destruct (String.eqb_spec k k') as [<-|Hne]; constructor; auto.
Qed.

(** A value fit for a record: neither null nor an empty container, and
    without such a value anywhere under a key. *)
Lemma clean_items_sound d :
  Forall (fun kv => keep (snd kv) = true /\ no_empty_values (snd kv) = true)
    (fold_left (clean_item _clean_empty_fields) d []).
Proof.
  apply (clean_items_values _clean_empty_fields
           (fun v => keep v = true /\ no_empty_values v = true)); auto.
  apply Forall_forall. intros kv _ Hk. split; [exact Hk|].
  apply no_empty_values_clean.
Qed.

Section RecordFacts.
Variable float_lt : string -> string -> bool.
Variable json_loads : string -> result json.
Variable str_exn : pyexn -> string.

(** The keys exempt from the stripping, or a sound value. *)
Let sound (kv : string * json) : Prop :=
  fst kv = "DocumentType" \/ fst kv = "ConfidenceScore"
  \/ (keep (snd kv) = true /\ no_empty_values (snd kv) = true).

Lemma restored_sound doc_type confidence d :
  Forall sound (restored doc_type confidence d).
Proof.
  unfold restored. cbv zeta.
  apply dict_set_pairs; [right; left; reflexivity|].
  apply dict_set_pairs; [left; reflexivity|].
  eapply Forall_impl; [|apply clean_items_sound].
  intros kv H. right. right. exact H.
Qed.

Lemma merge_readings_sound doc_type text d r :
  Forall sound d ->
  merge_readings float_lt doc_type text (JObj d) = Ok (JObj r) ->
  Forall sound r.
Proof.
  intros Hd. unfold merge_readings.
  destruct (mentions_odometer doc_type text); [|now intros [= <-]].
  cbv zeta.
  destruct (reading "OdometerReading" _); destruct (reading "TripReading" _);
    cbn [py_setitem rbind]; intros [= <-];
    repeat (apply dict_set_pairs; [right; right; split; reflexivity|]);
    exact Hd.
Qed.

(** X10. When the answer parses to an object, every key of the record
    returned other than [DocumentType] and [ConfidenceScore] is bound to a
    value that is neither null, [[]] nor [{}] and holds no such value under
    any key at any depth. *)
Theorem normalize_record_sound :
  forall (w : world) (text doc_type : string) (confidence : float)
         (content : string) (d : dict json),
    blank text = false ->
    model w (Structure doc_type text confidence) = Ok content ->
    _safe_parse_json json_loads (PyStr.strip content) = Ok (JObj d) ->
    exists r,
      run w (normalize_text float_lt json_loads str_exn text doc_type confidence)
      = JObj r
      /\ forall k v,
          dict_get k r = Some v ->
          k <> "DocumentType" -> k <> "ConfidenceScore" ->
          keep v = true /\ no_empty_values v = true.
Proof.
  intros w text doc_type confidence content d Hb Hm Hp.
  rewrite run_normalize by exact Hb. rewrite Hm.
  rewrite (structured_object _ _ _ _ _ _ _ Hp).
  destruct (merge_readings_object float_lt doc_type text
              (restored doc_type confidence d)) as (r & Hr & _).
  rewrite Hr. exists r. split; [reflexivity|].
  intros k v Hk Ht Hc.
  pose proof (merge_readings_sound _ _ _ _
                (restored_sound doc_type confidence d) Hr) as Hall.
  rewrite Forall_forall in Hall.
  destruct (Hall _ (dict_get_In _ _ _ Hk)) as [E|[E|E]]; simpl in E; tauto.
Qed.

(** X11. In every world the record returned either carries the key
    [error] or holds both [DocumentType] and [ConfidenceScore]. *)
Theorem normalize_error_or_required_keys :
  forall (w : world) (text doc_type : string) (confidence : float),
    exists r,
      run w (normalize_text float_lt json_loads str_exn text doc_type confidence)
      = JObj r
      /\ (dict_has "error" r = true
          \/ (dict_has "DocumentType" r = true
              /\ dict_has "ConfidenceScore" r = true)).
Proof.
  intros w text doc_type confidence.
  destruct (blank text) eqn:Hb.
  { rewrite normalize_blank by exact Hb. eexists. split; [reflexivity|].
    left. reflexivity. }
  rewrite run_normalize by exact Hb.
  destruct (model w (Structure doc_type text confidence)) as [content|e] eqn:Hm.
  2:{ eexists. split; [reflexivity|]. left. reflexivity. }
  destruct (_safe_parse_json json_loads (PyStr.strip content)) as [v|e] eqn:Hp.
  2:{ unfold structured. cbn [rbind]. cbv zeta. rewrite Hp. cbn [rbind].
      eexists. split; [reflexivity|]. left. reflexivity. }
  destruct v as [| | | | | |d];
    try (destruct (structured_not_object float_lt json_loads text doc_type
                     confidence content _ Hp) as [e He]; [discriminate|];
         rewrite He; eexists; split; [reflexivity|]; left; reflexivity).
  rewrite (structured_object _ _ _ _ _ _ _ Hp).
  destruct (merge_readings_object float_lt doc_type text
              (restored doc_type confidence d)) as (r & -> & Hframe & _).
  exists r. split; [reflexivity|]. right. unfold dict_has.
  rewrite !Hframe by reflexivity.
  now rewrite restored_document_type, restored_confidence_score.
Qed.

(** X12. An answer that parses to a JSON value other than an object makes
    the [try] block raise [TypeError] or [AttributeError], and the record
    returned is the failure record with the text of that exception. *)
Theorem normalize_rejects_non_object :
  forall (w : world) (text doc_type : string) (confidence : float)
         (content : string) (v : json),
    blank text = false ->
    model w (Structure doc_type text confidence) = Ok content ->
    _safe_parse_json json_loads (PyStr.strip content) = Ok v ->
    (forall d, v <> JObj d) ->
    exists e,
      (e = TypeError \/ e = AttributeError)
      /\ run w (normalize_text float_lt json_loads str_exn text doc_type confidence)
         = JObj [("error", JStr "Text normalization failed");
                 ("message", JStr (str_exn e))].
Proof.
  intros w text doc_type confidence content v Hb Hm Hp Hv.
  rewrite run_normalize by exact Hb. rewrite Hm.
  unfold structured. cbn [rbind]. cbv zeta. rewrite Hp. cbn [rbind].
  unfold ensure.
  destruct v as [| | | | s|l|d]; cbn [py_in rbind];
    try (exists TypeError; split; [auto | reflexivity]).
  - destruct (PyStr.contains "DocumentType" s); cbn [py_setitem rbind py_in];
      try (exists TypeError; split; [auto | reflexivity]).
    destruct (PyStr.contains "ConfidenceScore" s); cbn [py_setitem rbind py_get];
      [exists AttributeError | exists TypeError]; split; auto.
  - destruct (existsb (is_str "DocumentType") l); cbn [py_setitem rbind py_in];
      try (exists TypeError; split; [auto | reflexivity]).
    destruct (existsb (is_str "ConfidenceScore") l);
      cbn [py_setitem rbind py_get];
      [exists AttributeError | exists TypeError]; split; auto.
  - now destruct (Hv d).
Qed.

End RecordFacts.

Lemma normalize_record_sound_witness :
  exists r,
    run (sample_world "" 0.5 (Ok null_keys_text))
      (normalize_text decimal_lt loads_sample exn_text "Invoice 42" "Generic" 0.5)
    = JObj r
    /\ forall k v,
        dict_get k r = Some v ->
        k <> "DocumentType" -> k <> "ConfidenceScore" ->
        keep v = true /\ no_empty_values v = true.
Proof.
  apply (normalize_record_sound decimal_lt loads_sample exn_text
           (sample_world "" 0.5 (Ok null_keys_text)) "Invoice 42" "Generic" 0.5
           null_keys_text
           [("DocumentType", JNull); ("ConfidenceScore", JArr [])]);
    reflexivity.
Defined.

Lemma normalize_rejects_non_object_witness :
  exists e,
    (e = TypeError \/ e = AttributeError)
    /\ run (sample_world "" 0.5 (Ok "5"))
         (normalize_text decimal_lt loads_sample exn_text "Invoice 42" "Generic" 0.5)
       = JObj [("error", JStr "Text normalization failed");
               ("message", JStr (exn_text e))].
Proof.
  apply (normalize_rejects_non_object decimal_lt loads_sample exn_text
           (sample_world "" 0.5 (Ok "5")) "Invoice 42" "Generic" 0.5 "5" (JInt 5));
    try reflexivity.
  intros d. discriminate.
Defined.

(** ** The batch loop *)

Lemma model_calls_bind {A B : Type} (w : world) (p : prog A) (f : A -> prog B) :
  model_calls w (bind p f) = model_calls w p ++ model_calls w (f (run w p)).
Proof.
  induction p as [a|data k IH|req k IH|k IH]; simpl; auto.
  now rewrite IH.
Qed.

Section LoopFacts.
Variable float_lt : string -> string -> bool.
Variable json_loads : string -> result json.
Variable str_exn : pyexn -> string.
Variable json_dumps : json -> string.

Let process := process_document float_lt json_loads str_exn json_dumps.
Let normalize := normalize_text float_lt json_loads str_exn.
Let refine := refine_license_fields json_loads.

(** The run of the [try] block of the loop, step by step. *)
Lemma run_process_document w all_filenames f :
  run w (process all_filenames f) =
    match ocr w (data f) with
    | Raise e => Raise e
    | Ok ocr_result =>
        let text := fst ocr_result in
        let detected := detect_document_type (name f) text (Some all_filenames) in
        let normalized := run w (normalize text detected (snd ocr_result)) in
        match license_key normalized with
        | Raise e => Raise e
        | Ok key =>
            match run w (if PyStr.contains "driverlicense" key
                         then refine normalized text
                         else Ret (Ok normalized)) with
            | Raise e => Raise e
            | Ok refined =>
                match py_setitem refined "RawData" (raw_data text (name f)) with
                | Raise e => Raise e
                | Ok with_raw =>
                    match py_setitem with_raw "ProcessedDate" (JStr (clock w)) with
                    | Raise e => Raise e
                    | Ok record =>
                        Ok ((stem (name f) ++ ".json")%string,
                            Generated (json_dumps record) (name f) (data f)
                                      detected record)
                    end
                end
            end
        end
    end.
Proof.
  subst process normalize refine. unfold process_document. cbv zeta.
  rewrite run_ebind. cbn [run].
  destruct (ocr w (data f)) as [ocr_result|e]; [|reflexivity].
  rewrite run_bind.
  set (normalized := run w (normalize_text _ _ _ _ _ _)).
  rewrite run_ebind. unfold lift at 1. cbn [run].
  destruct (license_key normalized) as [key|e]; [|reflexivity].
  rewrite run_ebind.
  destruct (run w (if PyStr.contains "driverlicense" key then _ else _))
    as [refined|e]; [|reflexivity].
  rewrite run_ebind. unfold lift at 1. cbn [run].
  fold (raw_data (fst ocr_result) (name f)).
  destruct (py_setitem refined "RawData" _) as [with_raw|e]; [|reflexivity].
  cbn [run]. rewrite run_ebind. unfold lift. cbn [run].
  destruct (py_setitem with_raw "ProcessedDate" _) as [record|e]; reflexivity.
Qed.

Lemma run_process_from w all_filenames files :
  forall b,
    run w (process_from float_lt json_loads str_exn json_dumps
             all_filenames files b)
    = fold_left (fun b f => record_outcome str_exn (name f) b
                              (run w (process all_filenames f)))
        files b.
Proof.
  induction files as [|f fs IH]; intros b; [reflexivity|].
  cbn [process_from fold_left]. rewrite run_bind. apply IH.
Qed.

Lemma rows_from w all_filenames files :
  forall b,
    map row_document
      (results_summary
         (fold_left (fun b f => record_outcome str_exn (name f) b
                                  (run w (process all_filenames f)))
            files b))
    = map row_document (results_summary b) ++ map name files.
Proof.
  induction files as [|f fs IH]; intros b.
  - simpl. now rewrite app_nil_r.
  - cbn [fold_left map]. rewrite IH. unfold record_outcome.
    destruct (run w (process all_filenames f)) as [[n g]|e];
      cbn [results_summary]; rewrite map_app, <- app_assoc; reflexivity.
Qed.

(** X13. The summary has one row per uploaded file, in the order of the
    upload and under the name of the file, whether the document was
    processed or failed: no failure ends the batch or drops a file. *)
Theorem summary_row_per_file :
  forall (w : world) (uploaded_files : list upload),
    map row_document
      (results_summary
         (run w (process_documents float_lt json_loads str_exn json_dumps
                   uploaded_files)))
    = map name uploaded_files.
Proof.
  intros w uploaded_files. unfold process_documents.
  now rewrite run_process_from, rows_from.
Qed.

(** What the loop keeps true of the two collections. *)
Let filed (files : list upload) (b : batch) : Prop :=
  NoDup (keys (generated_jsons b))
  /\ Forall (fun ng =>
               fst ng = (stem (g_doc_name (snd ng)) ++ ".json")%string
               /\ (exists f, In f files /\ name f = g_doc_name (snd ng)
                             /\ data f = g_data (snd ng))
               /\ In (Succeeded (g_doc_name (snd ng)) (g_detected_type (snd ng))
                        (fst ng))
                    (results_summary b))
       (generated_jsons b)
  /\ (forall document detected json_file,
        In (Succeeded document detected json_file) (results_summary b) ->
        dict_has json_file (generated_jsons b) = true).

Lemma filed_step w all_filenames files f b :
  In f files -> filed files b ->
  filed files (record_outcome str_exn (name f) b (run w (process all_filenames f))).
Proof.
  intros Hf (Hnd & Hall & Hrows).
  destruct (run w (process all_filenames f)) as [[n g]|e] eqn:Hrun.
  - destruct (process_document_names _ _ _ _ _ _ _ _ _ Hrun) as (En & Ed & Eg).
    unfold record_outcome. split; [|split]; cbn [generated_jsons results_summary].
    + now apply dict_set_nodup.
    + apply dict_set_pairs.
      * cbn [fst snd]. rewrite Ed. split; [exact En|]. split; [eauto|].
        apply in_or_app. right. left. reflexivity.
      * eapply Forall_impl; [|exact Hall]. intros ng (H1 & H2 & H3).
        split; [exact H1|]. split; [exact H2|]. apply in_or_app. now left.
    + intros document detected json_file Hin.
      apply in_app_or in Hin as [Hin|[[= <- <- <-]|[]]].
      * unfold dict_has. destruct (String.eqb_spec n json_file) as [<-|Hne].
        -- now rewrite dict_get_set_same.
        -- rewrite dict_get_set_other by exact Hne. exact (Hrows _ _ _ Hin).
      * unfold dict_has. now rewrite dict_get_set_same.
  - unfold record_outcome. split; [|split]; cbn [generated_jsons results_summary].
    + exact Hnd.
    + eapply Forall_impl; [|exact Hall]. intros ng (H1 & H2 & H3).
      split; [exact H1|]. split; [exact H2|]. apply in_or_app. now left.
    + intros document detected json_file Hin.
      apply in_app_or in Hin as [Hin|[[=]|[]]]. exact (Hrows _ _ _ Hin).
Qed.

Lemma filed_from w all_filenames files fs :
  incl fs files ->
  forall b,
    filed files b ->
    filed files
      (fold_left (fun b f => record_outcome str_exn (name f) b
                               (run w (process all_filenames f)))
         fs b).
Proof.
  induction fs as [|f fs IH]; intros Hsub b Hb; [exact Hb|].
  cbn [fold_left]. apply IH.
  - intros x Hx. apply Hsub. now right.
  - apply filed_step; [apply Hsub; now left | exact Hb].
Qed.

(** X14. After the loop the keys of [generated_jsons] are distinct; every
    entry is filed under the stem of its document followed by ".json",
    belongs to an uploaded file whose bytes it keeps, and has its success
    row in the summary; and the JSON file named by a success row is a key
    of the collection. *)
Theorem generated_jsons_filed :
  forall (w : world) (uploaded_files : list upload),
    let b := run w (process_documents float_lt json_loads str_exn json_dumps
                      uploaded_files) in
    NoDup (keys (generated_jsons b))
    /\ (forall json_name g,
          In (json_name, g) (generated_jsons b) ->
          json_name = (stem (g_doc_name g) ++ ".json")%string
          /\ (exists f, In f uploaded_files /\ name f = g_doc_name g
                        /\ data f = g_data g)
          /\ In (Succeeded (g_doc_name g) (g_detected_type g) json_name)
               (results_summary b))
    /\ (forall document detected json_file,
          In (Succeeded document detected json_file) (results_summary b) ->
          dict_has json_file (generated_jsons b) = true).
Proof.
  intros w uploaded_files b.
  assert (H : filed uploaded_files b).
  { subst b. unfold process_documents. rewrite run_process_from.
    apply filed_from; [apply incl_refl|].
    split; [constructor|]. split; [constructor|]. intros ? ? ? []. }
  destruct H as (Hnd & Hall & Hrows).
  split; [exact Hnd|]. split; [|exact Hrows].
  intros json_name g Hin. rewrite Forall_forall in Hall.
  exact (Hall _ Hin).
Qed.

(** X15. When the text extractor raises, the document fails with that
    exception before anything else is done: the model is not called, the
    row of the summary is an error row with the text of the exception, and
    [generated_jsons] is left as it was. *)
Theorem ocr_failure_recorded :
  forall (w : world) (all_filenames : list string) (f : upload) (e : pyexn)
         (b : batch),
    ocr w (data f) = Raise e ->
    run w (process all_filenames f) = Raise e
    /\ model_calls w (process all_filenames f) = []
    /\ record_outcome str_exn (name f) b (run w (process all_filenames f))
       = Batch (results_summary b ++ [Errored (name f) (str_exn e)])
               (generated_jsons b).
Proof.
  intros w all_filenames f e b Hocr.
  assert (Hrun : run w (process all_filenames f) = Raise e).
  { rewrite run_process_document. now rewrite Hocr. }
  split; [exact Hrun|]. split; [|now rewrite Hrun].
  subst process. unfold process_document, ebind at 1.
  cbn [bind model_calls]. now rewrite Hocr.
Qed.

(** X16. A document whose extracted text is blank is filed as a success:
    the model is not called, and its record is the no-text error with the
    raw data and the date of processing. *)
Theorem blank_text_filed :
  forall (w : world) (all_filenames : list string) (f : upload)
         (text : string) (confidence : float),
    ocr w (data f) = Ok (text, confidence) ->
    blank text = true ->
    let record :=
      JObj [("error", JStr "No text provided for normalization.");
            ("RawData", raw_data text (name f));
            ("ProcessedDate", JStr (clock w))] in
    run w (process all_filenames f)
    = Ok ((stem (name f) ++ ".json")%string,
          Generated (json_dumps record) (name f) (data f)
            (detect_document_type (name f) text (Some all_filenames)) record)
    /\ model_calls w (process all_filenames f) = [].
Proof.
  intros w all_filenames f text confidence Hocr Hb record. split.
  - rewrite run_process_document, Hocr. cbv zeta. cbn [fst snd].
    subst normalize. rewrite normalize_blank by exact Hb. reflexivity.
  - subst process. unfold process_document, ebind at 1.
    cbn [bind model_calls]. rewrite Hocr. cbv zeta. cbn [fst snd bind].
    rewrite model_calls_bind, normalize_blank by exact Hb.
    reflexivity.
Qed.

(** X17. The record of a processed document holds [RawData], with the
    extracted text and the name of the file, and [ProcessedDate], with the
    time of the clock; the bytes kept are the serialization of that record
    and the type kept is the one detected from the name, the text and the
    names of the batch. *)
Theorem processed_record_metadata :
  forall (w : world) (all_filenames : list string) (f : upload)
         (json_name : string) (g : generated),
    run w (process all_filenames f) = Ok (json_name, g) ->
    exists (text : string) (confidence : float) (d : dict json),
      ocr w (data f) = Ok (text, confidence)
      /\ g_normalized g = JObj d
      /\ dict_get "RawData" d = Some (raw_data text (name f))
      /\ dict_get "ProcessedDate" d = Some (JStr (clock w))
      /\ g_bytes g = json_dumps (JObj d)
      /\ g_detected_type g
         = detect_document_type (name f) text (Some all_filenames).
Proof.
  intros w all_filenames f json_name g. rewrite run_process_document.
  destruct (ocr w (data f)) as [[text confidence]|e]; [|discriminate].
  cbv zeta. cbn [fst snd].
  destruct (license_key _) as [key|e]; [|discriminate].
  destruct (run w _) as [refined|e]; [|discriminate].
  destruct refined as [| | | | | |d0]; try discriminate.
  cbn [py_setitem]. intros [= _ <-].
  exists text, confidence. eexists. split; [reflexivity|].
  cbn [g_normalized g_bytes g_detected_type].
  split; [reflexivity|].
  rewrite dict_get_set_other by discriminate.
  rewrite !dict_get_set_same. repeat split.
Qed.

(** X18. A record whose [DocumentType] is not a string, which
    [normalize_text] returns when the model gives such a value, makes the
    document fail with [AttributeError]: it gets an error row and no
    entry. *)
Theorem non_string_type_fails :
  forall (w : world) (all_filenames : list string) (f : upload)
         (text : string) (confidence : float) (r : dict json) (v : json),
    ocr w (data f) = Ok (text, confidence) ->
    run w (normalize text
             (detect_document_type (name f) text (Some all_filenames)) confidence)
    = JObj r ->
    dict_get "DocumentType" r = Some v ->
    (forall s, v <> JStr s) ->
    run w (process all_filenames f) = Raise AttributeError.
Proof.
  intros w all_filenames f text confidence r v Hocr Hn Hv Hs.
  rewrite run_process_document, Hocr. cbv zeta. cbn [fst snd].
  rewrite Hn. unfold license_key. cbn [py_get rbind]. rewrite Hv.
  destruct v; try reflexivity. now destruct (Hs s).
Qed.

End LoopFacts.

Lemma ocr_failure_recorded_witness :
  run (World (fun _ => Raise (Failure "unsupported format")) (fun _ => Ok "{}") "now")
    (process_document decimal_lt loads_sample exn_text dumps_sample
       ["scan.bmp"] (Upload "scan.bmp" "BM"))
  = Raise (Failure "unsupported format").
Proof.
  apply (ocr_failure_recorded decimal_lt loads_sample exn_text dumps_sample
           (World (fun _ => Raise (Failure "unsupported format"))
                  (fun _ => Ok "{}") "now")
           ["scan.bmp"] (Upload "scan.bmp" "BM") (Failure "unsupported format")
           (Batch [] []) eq_refl).
Defined.

Lemma blank_text_filed_witness :
  model_calls (sample_world "  " 0.5 (Ok "{}"))
    (process_document decimal_lt loads_sample exn_text dumps_sample
       ["empty.pdf"] (Upload "empty.pdf" "%PDF"))
  = [].
Proof.
  apply (blank_text_filed decimal_lt loads_sample exn_text dumps_sample
           (sample_world "  " 0.5 (Ok "{}")) ["empty.pdf"]
           (Upload "empty.pdf" "%PDF") "  " 0.5 eq_refl eq_refl).
Defined.

Lemma non_string_type_fails_witness :
  run (sample_world "Invoice 42" 0.5 (Ok null_keys_text))
    (process_document decimal_lt loads_sample exn_text dumps_sample
       ["invoice.pdf"] (Upload "invoice.pdf" "%PDF"))
  = Raise AttributeError.
Proof.
  apply (non_string_type_fails decimal_lt loads_sample exn_text dumps_sample
           (sample_world "Invoice 42" 0.5 (Ok null_keys_text)) ["invoice.pdf"]
           (Upload "invoice.pdf" "%PDF") "Invoice 42" 0.5
           [("DocumentType", JNull); ("ConfidenceScore", JArr [])] JNull
           eq_refl eq_refl eq_refl).
  intros s. discriminate.
Defined.

Lemma processed_record_metadata_witness :
  exists (text : string) (confidence : float) (d : dict json),
    ocr (sample_world "Invoice 42" 0.5 (Ok "{}")) "%PDF" = Ok (text, confidence)
    /\ JObj [("DocumentType", JStr "Generic"); ("ConfidenceScore", JFloat 0.5);
             ("RawData", raw_data "Invoice 42" "invoice.pdf");
             ("ProcessedDate", JStr "2026-01-01 00:00:00")] = JObj d
    /\ dict_get "RawData" d = Some (raw_data text "invoice.pdf")
    /\ dict_get "ProcessedDate" d = Some (JStr "2026-01-01 00:00:00")
    /\ "DocumentType,ConfidenceScore,RawData,ProcessedDate"
       = dumps_sample (JObj d)
    /\ "Generic" = detect_document_type "invoice.pdf" text (Some ["invoice.pdf"]).
Proof.
  apply (processed_record_metadata decimal_lt loads_sample exn_text dumps_sample
           (sample_world "Invoice 42" 0.5 (Ok "{}")) ["invoice.pdf"]
           (Upload "invoice.pdf" "%PDF") "invoice.json"
           (Generated "DocumentType,ConfidenceScore,RawData,ProcessedDate"
              "invoice.pdf" "%PDF" "Generic"
              (JObj [("DocumentType", JStr "Generic");
                     ("ConfidenceScore", JFloat 0.5);
                     ("RawData", raw_data "Invoice 42" "invoice.pdf");
                     ("ProcessedDate", JStr "2026-01-01 00:00:00")]))).
  vm_compute. reflexivity.
Defined.

(** ** File names *)

Lemma rfind_dot_none s : PyStr.contains "." s = false -> rfind_dot s = None.
Proof.
  induction s as [|a s IH]; [reflexivity|].
  rewrite contains_cons. intros H. apply orb_false_iff in H as [Hp Hs].
  cbn [rfind_dot]. rewrite (IH Hs).
  destruct (Ascii.eqb_spec a "."%char) as [->|Hne]; [|reflexivity].
  simpl in Hp. destruct s; discriminate.
Qed.

Lemma rfind_dot_app base ext :
  PyStr.contains "." ext = false ->
  rfind_dot (base ++ String "."%char ext) = Some (String.length base).
Proof.
  intros Hext. induction base as [|a base IH]; simpl.
  - now rewrite (rfind_dot_none _ Hext).
  - now rewrite IH.
Qed.

Lemma slice_prefix base rest :
  PyStr.slice 0 (String.length base) (base ++ rest) = base.
Proof.
  unfold PyStr.slice. rewrite Nat.sub_0_r.
  induction base as [|a base IH]; simpl.
  - now destruct rest.
  - now rewrite IH.
Qed.

Lemma string_length_app s t :
  String.length (s ++ t) = String.length s + String.length t.
Proof. induction s; simpl; auto. Qed.

(** X19. The stem of [base.ext], for a name without a slash, a base that is
    not empty and an extension that is not empty and holds no point, is
    [base]: the JSON file of such a document is [base.json], whatever the
    extension. *)
Theorem stem_drops_extension :
  forall base ext : string,
    base <> "" ->
    ext <> "" ->
    PyStr.contains "." ext = false ->
    PyStr.contains "/" (base ++ "." ++ ext) = false ->
    stem (base ++ "." ++ ext) = base.
Proof.
  intros base ext Hb He Hdot Hslash.
  unfold stem, path_name, PyStr.split. cbv zeta.
  rewrite (split_from_no_sep _ _ Hslash).
  change ("" ++ (base ++ "." ++ ext))%string with (base ++ String "."%char ext)%string.
  assert (Hname : nonempty (base ++ String "."%char ext)
                  && negb (String.eqb (base ++ String "."%char ext) ".") = true).
  { destruct base as [|a base]; [congruence|]. simpl.
    destruct (Ascii.eqb a "."); [|reflexivity]. now destruct base. }
  cbn [filter]. rewrite Hname. cbn [last].
  rewrite (rfind_dot_app _ _ Hdot), string_length_app.
  assert (H0 : (0 <? String.length base)%nat = true).
  { apply Nat.ltb_lt. destruct base; [congruence | simpl; lia]. }
  assert (H1 : (String.length base
                <? String.length base + String.length (String "."%char ext) - 1)%nat
               = true).
  { apply Nat.ltb_lt. destruct ext; [congruence | simpl; lia]. }
  rewrite H0, H1. apply slice_prefix.
Qed.

Lemma stem_drops_extension_witness : stem "scan.2024.jpeg" = "scan.2024".
Proof.
  apply (stem_drops_extension "scan.2024" "jpeg"); [discriminate | discriminate | |];
    reflexivity.
Defined.

(** ** Empty-field stripping, key by key *)

Lemma clean_items_lookup (clean : json -> json) k d :
  NoDup (keys d) ->
  forall acc,
    dict_get k (fold_left (clean_item clean) d acc) =
      match dict_get k d with
      | Some v => if keep (clean v) then Some (clean v) else dict_get k acc
      | None => dict_get k acc
      end.
Proof.
  induction d as [|[k0 v0] d IH]; intros Hnd acc; [reflexivity|].
  cbn [keys map fst] in Hnd. inversion Hnd as [|? ? Hk0 Hd]; subst.
  cbn [fold_left]. rewrite (IH Hd). unfold clean_item. cbn [fst snd dict_get].
  destruct (String.eqb_spec k k0) as [->|Hne].
  - assert (E : dict_get k0 d = None) by now apply dict_get_none_keys.
    rewrite E. destruct (keep (clean v0)); [apply dict_get_set_same | reflexivity].
  - assert (E : dict_get k (if keep (clean v0)
                            then dict_set k0 (clean v0) acc else acc)
               = dict_get k acc).
    { destruct (keep (clean v0)); [|reflexivity].
      apply dict_get_set_other. congruence. }
    now rewrite E.
Qed.

(** X20. Stripping an object with distinct keys works key by key: a key is
    bound in the result exactly when it was bound to a value whose stripped
    form is neither null, [[]] nor [{}], and it is then bound to that
    stripped form; no key is added. *)
Theorem clean_object_lookup :
  forall (d : dict json) (k : string),
    NoDup (keys d) ->
    exists d',
      _clean_empty_fields (JObj d) = JObj d'
      /\ dict_get k d' =
           match dict_get k d with
           | Some v =>
               if keep (_clean_empty_fields v)
               then Some (_clean_empty_fields v)
               else None
           | None => None
           end.
Proof.
  intros d k Hnd. rewrite clean_object. eexists. split; [reflexivity|].
  rewrite (clean_items_lookup _ _ _ Hnd).
  destruct (dict_get k d) as [v|]; [|reflexivity].
  now destruct (keep (_clean_empty_fields v)).
Qed.

Lemma clean_object_lookup_witness :
  exists d',
    _clean_empty_fields
      (JObj [("Name", JStr ""); ("Owner", JObj [("Phones", JArr [])]);
             ("Paid", JBool false)])
    = JObj d'
    /\ dict_get "Owner" d' = None.
Proof.
  apply (clean_object_lookup
           [("Name", JStr ""); ("Owner", JObj [("Phones", JArr [])]);
            ("Paid", JBool false)] "Owner").
  repeat constructor; simpl; intuition discriminate.
Defined.

(** X21. The trees the stripping leaves unchanged are exactly the stripped
    trees: objects with distinct keys and arrays that are not empty, none of
    which holds null, [[]] or [{}], at every depth. *)
Theorem clean_fixed_iff_stripped :
  forall x : json, _clean_empty_fields x = x <-> Stripped x.
Proof.
  intros x. split.
  - intros <-. apply stripped_clean.
  - apply clean_stripped.
Qed.

(** ** The extractor and the case of the text *)

(** X22. The readings do not depend on the case of the text. *)
Theorem extract_ignores_case :
  forall (float_lt : string -> string -> bool) (text : string),
    _extract_odometer_and_trip_values float_lt (PyStr.lower text)
    = _extract_odometer_and_trip_values float_lt text.
Proof.
  intros float_lt text. unfold _extract_odometer_and_trip_values.
  rewrite nonempty_lower. unfold reading_text.
  now rewrite lower_idempotent.
Qed.

(** ** The matcher on a text without digits *)

Lemma suffix_refl s : Suffix s s.
Proof. now exists EmptyString. Qed.

Lemma suffix_cons a s t : Suffix s t -> Suffix s (String a t).
Proof. intros [pre ->]. now exists (String a pre). Qed.

Lemma suffix_trans s t u : Suffix s t -> Suffix t u -> Suffix s u.
Proof.
  intros [p ->] [q ->]. exists (q ++ p)%string.
  induction q; simpl; congruence.
Qed.

Lemma no_digit_app s t : no_digit (s ++ t) = no_digit s && no_digit t.
Proof.
  induction s as [|a s IH]; simpl; auto.
  now rewrite IH, andb_assoc.
Qed.

Lemma no_digit_suffix s t : Suffix s t -> no_digit t = true -> no_digit s = true.
Proof.
  intros [pre ->]. rewrite no_digit_app, andb_true_iff. tauto.
Qed.

Section MatcherFacts.
Import Re.

Lemma lit_suffix s : forall c c', lit s c = Some c' -> Suffix (rest c') (rest c).
Proof.
  induction s as [|a s IH]; intros c c'; cbn [lit].
  - intros [= <-]. apply suffix_refl.
  - destruct (rest c) as [|b t] eqn:E; [discriminate|].
    destruct (Ascii.eqb a b); [|discriminate].
    intros H. apply IH in H. cbn [step rest] in H. now apply suffix_cons.
Qed.

(** A continuation that fails wherever the matcher can get to makes the
    matcher fail. *)
Lemma rep_fails k cont :
  forall s min c,
    rest c = s ->
    (forall c', Suffix (rest c') s -> cont c' = None) ->
    rep k min s c cont = None.
Proof.
  induction s as [|a t IH]; intros min c Hc Hcont; cbn [rep].
  - destruct min; [|reflexivity]. apply Hcont. rewrite Hc. apply suffix_refl.
  - assert (Hstop : match min with O => cont c | S _ => None end = None).
    { destruct min; [|reflexivity]. apply Hcont. rewrite Hc. apply suffix_refl. }
    destruct (in_cls k a); [|exact Hstop].
    rewrite IH; [exact Hstop | reflexivity |].
    intros c' Hs. apply Hcont. now apply suffix_cons.
Qed.

Lemma run_fails r :
  forall c cont,
    (forall c', Suffix (rest c') (rest c) -> cont c' = None) ->
    run r c cont = None.
Proof.
  induction r as [s|k|min k|r1 IH1 r2 IH2|r1 IH1 r2 IH2|r IH|r IH|];
    intros c cont Hcont; cbn [run].
  - destruct (lit s c) as [c'|] eqn:E; [|reflexivity].
    apply Hcont. now apply lit_suffix in E.
  - destruct (rest c) as [|a t] eqn:E; [reflexivity|].
    destruct (in_cls k a); [|reflexivity].
    apply Hcont. cbn [step rest]. apply suffix_cons, suffix_refl.
  - now apply rep_fails.
  - apply IH1. intros c' Hs. apply IH2. intros c'' Hs'.
    apply Hcont. eapply suffix_trans; eauto.
  - rewrite IH1 by exact Hcont. now apply IH2.
  - rewrite IH by exact Hcont. apply Hcont, suffix_refl.
  - apply IH. intros c' Hs. apply Hcont. exact Hs.
  - destruct (xorb _ _); [|reflexivity]. apply Hcont, suffix_refl.
Qed.

(** A pattern that needs a digit matches nowhere in a text without one. *)
Lemma run_needs_digit r :
  needs_digit r = true ->
  forall c cont, no_digit (rest c) = true -> run r c cont = None.
Proof.
  induction r as [s|k|min k|r1 IH1 r2 IH2|r1 IH1 r2 IH2|r IH|r IH|];
    cbn [needs_digit]; try discriminate; intros Hn c cont Hd.
  - destruct k; try discriminate. cbn [run].
    destruct (rest c) as [|a t]; [reflexivity|].
    cbn [no_digit] in Hd. apply andb_true_iff in Hd as [Ha _].
    cbn [in_cls]. now destruct (PyStr.is_digit a).
  - destruct min as [|n]; [discriminate|]. destruct k; try discriminate.
    cbn [run]. destruct (rest c) as [|a t]; [reflexivity|].
    cbn [no_digit] in Hd. apply andb_true_iff in Hd as [Ha _].
    cbn [rep in_cls]. now destruct (PyStr.is_digit a).
  - cbn [run]. apply orb_true_iff in Hn as [Hn|Hn].
    + now apply IH1.
    + apply run_fails. intros c' Hs. apply IH2; [exact Hn|].
      eapply no_digit_suffix; eauto.
  - cbn [run]. apply andb_true_iff in Hn as [H1 H2].
    rewrite IH1 by assumption. now apply IH2.
  - cbn [run]. now apply IH.
Qed.

Lemma search_from_no_digit r :
  needs_digit r = true ->
  forall s i before, no_digit s = true -> search_from r i before s = None.
Proof.
  intros Hn. induction s as [|a t IH]; intros i before Hd;
    cbn [search_from]; unfold match_at;
    rewrite (run_needs_digit r Hn) by exact Hd; [reflexivity|].
  cbn [no_digit] in Hd. apply andb_true_iff in Hd as [_ Hd]. now apply IH.
Qed.

Lemma finditer_from_no_digit r :
  needs_digit r = true ->
  forall s skip i before, no_digit s = true -> finditer_from r skip i before s = [].
Proof.
  intros Hn. induction s as [|a t IH]; intros skip i before Hd;
    cbn [finditer_from]; unfold match_at;
    rewrite (run_needs_digit r Hn) by exact Hd.
  - now destruct skip.
  - cbn [no_digit] in Hd. apply andb_true_iff in Hd as [_ Hd].
    destruct skip; now apply IH.
Qed.

Lemma sub_from_no_digit r repl :
  no_digit repl = true ->
  forall s skip i before,
    no_digit s = true -> no_digit (sub_from r repl skip i before s) = true.
Proof.
  intros Hr. induction s as [|a t IH]; intros skip i before Hd; [reflexivity|].
  cbn [no_digit] in Hd. apply andb_true_iff in Hd as [Ha Hd].
  cbn [sub_from].
  destruct (match skip with O => match_at r i before (String a t) | S _ => None end)
    as [m|].
  - rewrite no_digit_app, Hr. now apply IH.
  - destruct skip; [cbn [no_digit]; rewrite Ha|]; now apply IH.
Qed.

End MatcherFacts.

Lemma is_digit_lower_char c : PyStr.is_digit (PyStr.lower_char c) = PyStr.is_digit c.
Proof. destruct c as [[] [] [] [] [] [] [] []]; reflexivity. Qed.

Lemma no_digit_lower s : no_digit (PyStr.lower s) = no_digit s.
Proof.
  induction s as [|a s IH]; simpl; auto.
  now rewrite is_digit_lower_char, IH.
Qed.

Lemma no_digit_lstrip p s : no_digit s = true -> no_digit (PyStr.lstrip_by p s) = true.
Proof.
  induction s as [|a s IH]; simpl; auto.
  intros H. destruct (p a); [|exact H].
  apply andb_true_iff in H as [_ H]. now apply IH.
Qed.

Lemma no_digit_rstrip p s : no_digit s = true -> no_digit (PyStr.rstrip_by p s) = true.
Proof.
  induction s as [|a s IH]; [reflexivity|].
  cbn [PyStr.rstrip_by no_digit]. intros H.
  apply andb_true_iff in H as [Ha H]. specialize (IH H).
  destruct (PyStr.rstrip_by p s) as [|b r].
  - destruct (p a); [reflexivity|]. cbn [no_digit]. now rewrite Ha.
  - change (negb (PyStr.is_digit a) && no_digit (String b r) = true).
    now rewrite Ha, IH.
Qed.

Lemma no_digit_reading_text text :
  no_digit text = true -> no_digit (reading_text text) = true.
Proof.
  intros H. unfold reading_text, PyStr.strip, Re.sub.
  apply no_digit_rstrip, no_digit_lstrip.
  apply sub_from_no_digit; [reflexivity|].
  apply sub_from_no_digit; [reflexivity|].
  now rewrite no_digit_lower.
Qed.

(** X23. The extractor never makes up a reading: for an ASCII text that is
    not empty and holds no digit, [OdometerReading] is the empty string,
    there is no [TripReading], and only the unit is read from the text. *)
Theorem extract_without_digits :
  forall (float_lt : string -> string -> bool) (c : ascii) (s : string),
    let text := String c s in
    is_ascii text = true ->
    no_digit text = true ->
    _extract_odometer_and_trip_values float_lt text
    = [("OdometerReading", ""); ("Unit", unit_of (reading_text text))].
Proof.
  intros float_lt c s text _ Hd.
  pose proof (no_digit_reading_text text Hd) as Hclean.
  pose proof (extract_shape float_lt c s) as Hshape. cbv zeta in Hshape.
  fold text in Hshape. rewrite Hshape. clear Hshape.
  assert (Htrip : trip_found (reading_text text) = "").
  { unfold trip_found, trip_match, Re.search.
    now rewrite !search_from_no_digit. }
  assert (Hodo : odo_found float_lt (reading_text text) = "").
  { unfold odo_found, mileage_matches, nums, Re.findall, Re.finditer.
    now rewrite !finditer_from_no_digit. }
  rewrite Htrip, Hodo. reflexivity.
Qed.

Lemma extract_without_digits_witness :
  _extract_odometer_and_trip_values decimal_lt "Trip computer: km / info"
  = [("OdometerReading", ""); ("Unit", "km")].
Proof.
  apply (extract_without_digits decimal_lt "T"%char "rip computer: km / info");
    reflexivity.
Defined.

(** ** The calls to the model for one document *)

Section CallFacts.
Variable float_lt : string -> string -> bool.
Variable json_loads : string -> result json.
Variable str_exn : pyexn -> string.
Variable json_dumps : json -> string.

Let process := process_document float_lt json_loads str_exn json_dumps.
Let normalize := normalize_text float_lt json_loads str_exn.

Lemma model_calls_refine w json_data raw_text key :
  license_key json_data = Ok key ->
  model_calls w (refine_license_fields json_loads json_data raw_text)
  = if PyStr.contains "driverlicense" key
    then [Refine raw_text json_data]
    else [].
Proof.
  intros Hk. unfold refine_license_fields. rewrite Hk.
  destruct (PyStr.contains "driverlicense" key); cbn [negb model_calls];
    [|reflexivity].
  now destruct (refined_of json_loads _).
Qed.

(** X24. For a document whose text was extracted, the model is asked by
    [normalize_text] and then, only for a record whose type, lower-cased
    and without blanks, holds "driverlicense", once more by the refiner,
    with the text and that record: never more than twice. *)
Theorem document_model_calls :
  forall (w : world) (all_filenames : list string) (f : upload)
         (text : string) (confidence : float),
    ocr w (data f) = Ok (text, confidence) ->
    let detected := detect_document_type (name f) text (Some all_filenames) in
    let normalized := run w (normalize text detected confidence) in
    model_calls w (process all_filenames f)
    = model_calls w (normalize text detected confidence)
      ++ match license_key normalized with
         | Ok key =>
             if PyStr.contains "driverlicense" key
             then [Refine text normalized]
             else []
         | Raise _ => []
         end
    /\ List.length (model_calls w (process all_filenames f)) <= 2.
Proof.
  intros w all_filenames f text confidence Hocr detected normalized.
  assert (E : model_calls w (process all_filenames f)
              = model_calls w (normalize text detected confidence)
                ++ match license_key normalized with
                   | Ok key =>
                       if PyStr.contains "driverlicense" key
                       then [Refine text normalized]
                       else []
                   | Raise _ => []
                   end).
  { subst process normalize. unfold process_document, ebind at 1.
    cbn [bind model_calls]. rewrite Hocr. cbv zeta. cbn [fst snd bind].
    fold detected. rewrite model_calls_bind. fold normalized. f_equal.
    unfold ebind at 1, lift at 1. cbn [bind].
    destruct (license_key normalized) as [key|e] eqn:Hk; [|reflexivity].
    unfold ebind at 1. rewrite model_calls_bind.
    assert (Hcalls : model_calls w
                       (if PyStr.contains "driverlicense" key
                        then refine_license_fields json_loads normalized text
                        else Ret (Ok normalized))
                     = if PyStr.contains "driverlicense" key
                       then [Refine text normalized] else []).
    { destruct (PyStr.contains "driverlicense" key) eqn:Hc; [|reflexivity].
      rewrite (model_calls_refine w _ _ _ Hk). now rewrite Hc. }
    rewrite Hcalls.
    destruct (run w (if PyStr.contains "driverlicense" key then _ else _))
      as [refined|e]; [|now rewrite app_nil_r].
    unfold ebind at 1, lift at 1. cbn [bind].
    destruct (py_setitem refined "RawData" _) as [with_raw|e];
      [|now rewrite app_nil_r].
    cbn [model_calls]. unfold ebind, lift. cbn [bind].
    destruct (py_setitem with_raw "ProcessedDate" _);
      cbn [model_calls]; now rewrite app_nil_r. }
  split; [exact E|]. rewrite E, length_app.
  assert (H1 : List.length (model_calls w (normalize text detected confidence)) <= 1).
  { subst normalize. unfold normalize_text.
    destruct (blank text); cbn [model_calls List.length]; [lia|].
    destruct (structured _ _ _ _ _ _); cbn [model_calls List.length]; lia. }
  destruct (license_key normalized) as [key|e]; [|simpl; lia].
  destruct (PyStr.contains "driverlicense" key); simpl; lia.
Qed.

(** X25. The refiner hands back whatever JSON value its answer parses to.
    When that value is not an object the assignment of [RawData] raises
    [TypeError], and the document fails although it was structured. *)
Theorem refined_non_object_fails :
  forall (w : world) (all_filenames : list string) (f : upload)
         (text : string) (confidence : float) (key : string) (v : json),
    ocr w (data f) = Ok (text, confidence) ->
    let detected := detect_document_type (name f) text (Some all_filenames) in
    let normalized := run w (normalize text detected confidence) in
    license_key normalized = Ok key ->
    PyStr.contains "driverlicense" key = true ->
    refined_of json_loads (model w (Refine text normalized)) = Ok v ->
    (forall d, v <> JObj d) ->
    run w (refine_license_fields json_loads normalized text) = Ok v
    /\ run w (process all_filenames f) = Raise TypeError.
Proof.
  intros w all_filenames f text confidence key v Hocr detected normalized
    Hk Hc Hr Hv.
  assert (E : run w (refine_license_fields json_loads normalized text) = Ok v).
  { unfold refine_license_fields. rewrite Hk, Hc. cbn [negb run].
    now rewrite Hr. }
  split; [exact E|].
  subst process. rewrite run_process_document, Hocr. cbv zeta. cbn [fst snd].
  fold detected. fold normalize. fold normalized. rewrite Hk, Hc, E.
  destruct v; try reflexivity. now destruct (Hv d).
Qed.

End CallFacts.

Lemma document_model_calls_witness :
  List.length
    (model_calls (sample_world "Driver License 123" 0.5 (Ok "{}"))
       (process_document decimal_lt loads_sample exn_text dumps_sample
          ["dl.pdf"] (Upload "dl.pdf" "%PDF")))
  <= 2.
Proof.
  apply (document_model_calls decimal_lt loads_sample exn_text dumps_sample
           (sample_world "Driver License 123" 0.5 (Ok "{}")) ["dl.pdf"]
           (Upload "dl.pdf" "%PDF") "Driver License 123" 0.5 eq_refl).
Defined.

Lemma refined_non_object_fails_witness :
  run (refining_world "Driver License 123" 0.5 (Ok "{}") (Ok "5"))
    (process_document decimal_lt loads_sample exn_text dumps_sample
       ["scan.pdf"] (Upload "scan.pdf" "%PDF"))
  = Raise TypeError.
Proof.
  apply (refined_non_object_fails decimal_lt loads_sample exn_text dumps_sample
           (refining_world "Driver License 123" 0.5 (Ok "{}") (Ok "5"))
           ["scan.pdf"] (Upload "scan.pdf" "%PDF") "Driver License 123" 0.5
           "driverlicense" (JInt 5) eq_refl).
  - reflexivity.
  - reflexivity.
  - reflexivity.
  - intros d. discriminate.
Defined.

(** ** Folders of the input container *)

Lemma prefix_char c a t :
  String.prefix (String c EmptyString) (String a t) = Ascii.eqb c a.
Proof.
  simpl. destruct (ascii_dec c a) as [->|Hne].
  - rewrite Ascii.eqb_refl. now destruct t.
  - symmetry. now apply Ascii.eqb_neq.
Qed.

Lemma append_empty_r s : (s ++ "")%string = s.
Proof. induction s; simpl; congruence. Qed.

Lemma append_assoc s t u : ((s ++ t) ++ u)%string = (s ++ t ++ u)%string.
Proof. induction s; simpl; congruence. Qed.

(** The first piece of a split is the text before the first separator. *)
Lemma split_from_found p :
  PyStr.contains "/" p = false ->
  forall cur rest,
    PyStr.split_from "/" 0 cur (p ++ "/" ++ rest)
    = (cur ++ p)%string :: PyStr.split_from "/" 0 "" rest.
Proof.
  induction p as [|a p IH]; intros Hp cur rest.
  - change ("" ++ "/" ++ rest)%string with (String "/"%char rest).
    cbn [PyStr.split_from]. rewrite prefix_char, Ascii.eqb_refl.
    now rewrite append_empty_r.
  - rewrite contains_cons in Hp. apply orb_false_iff in Hp as [Ha Hp].
    rewrite prefix_char in Ha.
    change (String a p ++ "/" ++ rest)%string with (String a (p ++ "/" ++ rest)).
    cbn [PyStr.split_from]. rewrite prefix_char, Ha, (IH Hp).
    now rewrite append_assoc.
Qed.

Lemma split_from_first s :
  forall cur p q l,
    PyStr.split_from "/" 0 cur s = p :: q :: l ->
    exists p' rest,
      p = (cur ++ p')%string /\ s = (p' ++ "/" ++ rest)%string
      /\ PyStr.contains "/" p' = false.
Proof.
  induction s as [|a t IH]; intros cur p q l; cbn [PyStr.split_from].
  - discriminate.
  - rewrite prefix_char. destruct (Ascii.eqb_spec "/"%char a) as [<-|Hne].
    + intros [= <- _]. exists EmptyString, t.
      now rewrite append_empty_r.
    + intros H. apply IH in H as (p' & rest & -> & -> & Hp').
      exists (String a p'), rest. rewrite append_assoc. repeat split.
      rewrite contains_cons, prefix_char, Hp'.
      apply Ascii.eqb_neq in Hne. now rewrite Hne.
Qed.

Lemma split_from_nonempty sep s :
  forall skip cur, exists q l, PyStr.split_from sep skip cur s = q :: l.
Proof.
  induction s as [|a t IH]; intros skip cur; cbn [PyStr.split_from]; eauto.
  destruct skip; [|apply IH].
  destruct (String.prefix sep (String a t)); eauto.
Qed.

Lemma top_folder_spec blob_name folder :
  In folder (top_folder blob_name)
  <-> exists rest,
      blob_name = (folder ++ "/" ++ rest)%string
      /\ PyStr.contains "/" folder = false.
Proof.
  unfold top_folder, PyStr.split. split.
  - destruct (PyStr.split_from "/" 0 "" blob_name) as [|p [|q l]] eqn:E;
      [intros [] | intros [] |].
    intros [<-|[]]. apply split_from_first in E as (p' & rest & -> & -> & Hp).
    now exists rest.
  - intros (rest & -> & Hf). rewrite (split_from_found _ Hf).
    destruct (split_from_nonempty "/" rest 0 "") as (q & l & ->).
    now left.
Qed.

(** X26. [list_folders] returns, in increasing order and without
    repetition, exactly the texts that stand before the first slash of some
    blob name: a name without a slash gives no folder. *)
Theorem list_folders_sorted_distinct :
  forall blob_names : list string,
    Sorted (fun a b => String.leb a b = true) (list_folders blob_names)
    /\ NoDup (list_folders blob_names)
    /\ forall folder,
        In folder (list_folders blob_names)
        <-> exists blob_name rest,
            In blob_name blob_names
            /\ blob_name = (folder ++ "/" ++ rest)%string
            /\ PyStr.contains "/" folder = false.
Proof.
  intros blob_names. unfold list_folders.
  pose proof (StringSort.Permuted_sort (folder_set blob_names)) as Hperm.
  split; [exact (StringSort.Sorted_sort (folder_set blob_names))|].
  split.
  - eapply Permutation_NoDup; [exact Hperm|]. apply NoDup_nodup.
  - intros folder. split.
    + intros Hin. apply (Permutation_in _ (Permutation_sym Hperm)) in Hin.
      unfold folder_set in Hin. apply nodup_In, in_flat_map in Hin.
      destruct Hin as (blob_name & Hn & Hf).
      apply top_folder_spec in Hf as (rest & E & Hs). eauto.
    + intros (blob_name & rest & Hn & E & Hs).
      apply (Permutation_in _ Hperm). unfold folder_set.
      apply nodup_In, in_flat_map. exists blob_name. split; [exact Hn|].
      apply top_folder_spec. eauto.
Qed.

(** Folders come out in the order of Python, capitals first. *)
Lemma list_folders_example :
  list_folders ["stips/2/a.pdf"; "Loans/x.png"; "readme.txt"; "stips/1/b.pdf"; "/root"]
  = [""; "Loans"; "stips"].
Proof. reflexivity. Qed.

(** ** The text of a document *)

Lemma strip_all_space s : all_space s = true -> PyStr.strip s = "".
Proof.
  unfold all_space, PyStr.strip. intros H.
  apply rstrip_by_empty, lstrip_by_all. exact H.
Qed.

Lemma all_space_app s t : all_space (s ++ t) = all_space s && all_space t.
Proof.
  unfold all_space. induction s as [|a s IH]; simpl; auto.
  now rewrite IH, andb_assoc.
Qed.

Lemma concat_all_space sep l :
  all_space sep = true ->
  Forall (fun s => all_space s = true) l ->
  all_space (String.concat sep l) = true.
Proof.
  intros Hsep. induction 1 as [|s l Hs Hl IH]; [reflexivity|].
  destruct l as [|t l]; [exact Hs|].
  change (String.concat sep (s :: t :: l))
    with (s ++ sep ++ String.concat sep (t :: l))%string.
  now rewrite !all_space_app, Hs, Hsep, IH.
Qed.

(** X27. The text that [analyze_document] returns is stripped: stripping it
    again changes nothing, so it is blank for [normalize_text] exactly when
    it is empty; and it is empty when every line of every page is made of
    white space only, in particular when no page has a line. *)
Theorem full_text_stripped :
  forall pages : list (list string),
    PyStr.strip (full_text pages) = full_text pages
    /\ (blank (full_text pages) = true <-> full_text pages = "")
    /\ (Forall (Forall (fun line => all_space line = true)) pages ->
        full_text pages = "").
Proof.
  intros pages. unfold full_text.
  set (joined := String.concat line_feed (map page_text pages)).
  split; [apply strip_idempotent|]. split.
  - unfold blank. rewrite strip_idempotent.
    destruct (PyStr.strip joined); simpl; split; congruence.
  - intros H. apply strip_all_space. subst joined.
    apply concat_all_space; [reflexivity|].
    apply Forall_map. eapply Forall_impl; [|exact H].
    intros lines Hl. unfold page_text. now apply concat_all_space.
Qed.

Lemma full_text_stripped_witness : full_text [[]; [" "; ""]; []] = "".
Proof.
  apply (proj2 (proj2 (full_text_stripped [[]; [" "; ""]; []]))).
  repeat constructor.
Defined.

Lemma full_text_example :
  full_text [["Odometer"; "68263 mi "]; []; [" TM 2471.6"]]
  = ("Odometer 68263 mi " ++ line_feed ++ line_feed ++ " TM 2471.6")%string.
Proof. reflexivity. Qed.
